(** * Books page (src/pages/Books.js): model and verified properties

    The page is a React component: seven state slots, two effects (Firebase
    start-up, catalogue subscription), one asynchronous click handler
    ([handlePurchase]) and a modal.  The component is embedded as a state
    record and handlers in a small state monad over the component state and
    the outside world (console, auth listener, timers, navigation, pending
    and persisted Firestore writes).

    JavaScript values are modelled by [value]; objects used as records are
    finite maps from property names to values. *)

From Stdlib Require Import ZArith Lia Ascii String.
From stdpp Require Import base option list strings gmap fin_maps pretty.

#[local] Set Warnings "-register-all".
#[local] Open Scope Z_scope.

(** ** JavaScript values *)

Module JS.

(** Numbers are the integers a double holds exactly, plus [NaN]; the page
    never computes with a number, it only tests, prints and stores them.
    The numbers of the page are prices and the like: integers below 1e21 in
    magnitude, which is where JavaScript prints an integer with all its
    digits. *)
Inductive value : Type :=
  | VUndef
  | VNull
  | VBool (b : bool)
  | VNum (z : Z)
  | VNaN
  | VStr (s : string)
  | VArr (l : list value)
  | VObj (m : gmap string value).

Abbreviation obj := (gmap string value).

(** [o.k]: reading a property that is not there gives [undefined]. *)
Definition get_prop (o : obj) (k : string) : value := default VUndef (o !! k).

(** [{ ...target, ...source }]: the properties of [source] are copied onto
    [target] one by one, so on a shared key the source's value wins. *)
Definition spread (target source : obj) : obj := source ∪ target.

(** ToBoolean, the test behind [if (x)] and [!x]. *)
Class ToBoolean (A : Type) := to_boolean : A -> bool.

#[export] Instance string_to_boolean : ToBoolean string :=
  fun s => match s with EmptyString => false | String _ _ => true end.

#[export] Instance value_to_boolean : ToBoolean value :=
  fun v => match v with
           | VUndef | VNull | VNaN => false
           | VBool b => b
           | VNum z => negb (z =? 0)
           | VStr s => to_boolean s
           | VArr _ | VObj _ => true
           end.

#[export] Instance bool_to_boolean : ToBoolean bool := fun b => b.

(** A state slot holding [null] or an [A]. *)
#[export] Instance nullable_to_boolean {A} `{ToBoolean A} : ToBoolean (option A) :=
  fun o => match o with None => false | Some a => to_boolean a end.

(** ToString, the conversion a template literal applies to [${x}].  A
    number is printed in plain decimal digits, as [Number::toString] does
    for an integer below 1e21 in magnitude (from there on JavaScript uses an
    exponent). *)
Fixpoint join_with (sep : string) (l : list string) : string :=
  match l with
  | [] => ""
  | [s] => s
  | s :: rest => s +:+ sep +:+ join_with sep rest
  end.

Fixpoint ToString (v : value) : string :=
  match v with
  | VUndef => "undefined"
  | VNull => "null"
  | VBool true => "true"
  | VBool false => "false"
  | VNum z => pretty z
  | VNaN => "NaN"
  | VStr s => s
  | VArr l =>
      join_with ","
        (map (fun x => match x with VUndef | VNull => "" | _ => ToString x end) l)
  | VObj _ => "[object Object]"
  end.

(** [Object.keys(v).length]: a [TypeError] ([None]) on [null] and
    [undefined], no keys on the other primitives, the indices of a string or
    an array, the own properties of an object. *)
Definition Object_keys (v : value) : option (list string) :=
  match v with
  | VUndef | VNull => None
  | VBool _ | VNum _ | VNaN => Some []
  | VStr s => Some (pretty <$> seq 0 (String.length s))
  | VArr l => Some (pretty <$> seq 0 (List.length l))
  | VObj m => Some (map_to_list m).*1
  end.

(** The double quote character. *)
Definition dquote : ascii := "034"%char.

(** [s.startsWith(p)] and [s.includes(sub)]. *)
Fixpoint startsWith (p s : string) : bool :=
  match p, s with
  | EmptyString, _ => true
  | String a p', String b s' => Ascii.eqb a b && startsWith p' s'
  | String _ _, EmptyString => false
  end.

Fixpoint includes (sub s : string) : bool :=
  startsWith sub s ||
  match s with
  | EmptyString => false
  | String _ s' => includes sub s'
  end.

End JS.
Export JS.

(** ** Dates: [new Date().toISOString()]

    A time value is a count of milliseconds since the epoch, at most
    8.64e15 in magnitude (ECMAScript, Time Values and Time Range); the
    current time is always one. *)

Module Date.

Definition is_time_value (t : Z) : bool :=
  (-8640000000000000 <=? t) && (t <=? 8640000000000000).

Record TimeValue := mkTimeValue {
  ms_of : Z;
  ms_in_range : is_time_value ms_of = true
}.

Definition msPerDay : Z := 86400000.
Definition msPerHour : Z := 3600000.
Definition msPerMinute : Z := 60000.
Definition msPerSecond : Z := 1000.

Definition Day (t : Z) : Z := t / msPerDay.
Definition HourFromTime (t : Z) : Z := (t / msPerHour) mod 24.
Definition MinFromTime (t : Z) : Z := (t / msPerMinute) mod 60.
Definition SecFromTime (t : Z) : Z := (t / msPerSecond) mod 60.
Definition msFromTime (t : Z) : Z := t mod msPerSecond.

(** Year, month (1 to 12) and day of the month of a day number, in the
    proleptic Gregorian calendar, counting by 400-year eras that start on
    1 March. *)
Definition civil_from_days (z : Z) : Z * Z * Z :=
  let z := z + 719468 in
  let era := z / 146097 in
  let doe := z - era * 146097 in
  let yoe := (doe - doe / 1460 + doe / 36524 - doe / 146096) / 365 in
  let y := yoe + era * 400 in
  let doy := doe - (365 * yoe + yoe / 4 - yoe / 100) in
  let mp := (5 * doy + 2) / 153 in
  let d := doy - (153 * mp + 2) / 5 + 1 in
  let m := if mp <? 10 then mp + 3 else mp - 9 in
  (if m <=? 2 then y + 1 else y, m, d).

(** The day number of a calendar date (MakeDay). *)
Definition days_from_civil (y m d : Z) : Z :=
  let y := if m <=? 2 then y - 1 else y in
  let era := y / 400 in
  let yoe := y - era * 400 in
  let doy := (153 * (if 2 <? m then m - 3 else m + 9) + 2) / 5 + d - 1 in
  let doe := yoe * 365 + yoe / 4 - yoe / 100 + doy in
  era * 146097 + doe - 719468.

Definition is_leap_year (y : Z) : bool :=
  ((y mod 4 =? 0) && negb (y mod 100 =? 0)) || (y mod 400 =? 0).

Definition days_in_month (y m : Z) : Z :=
  if m =? 2 then (if is_leap_year y then 29 else 28)
  else if (m =? 4) || (m =? 6) || (m =? 9) || (m =? 11) then 30
  else 31.

(** Decimal digits. *)
Definition digit_to_ascii (d : Z) : ascii := ascii_of_N (Z.to_N (48 + d)).

Definition ascii_to_digit (c : ascii) : option Z :=
  let n := Z.of_N (N_of_ascii c) in
  if (48 <=? n) && (n <=? 57) then Some (n - 48) else None.

(** [pad n v rest]: the last [n] decimal digits of [v], most significant
    first, in front of [rest]. *)
Fixpoint pad (n : nat) (v : Z) (rest : string) : string :=
  match n with
  | O => rest
  | S n' => String (digit_to_ascii ((v / 10 ^ Z.of_nat n') mod 10)) (pad n' v rest)
  end.

(** Years 0 to 9999 print as four digits, the others as a sign and six. *)
Definition pad_year (y : Z) (rest : string) : string :=
  if (0 <=? y) && (y <=? 9999) then pad 4 y rest
  else String (if 0 <=? y then "+"%char else "-"%char) (pad 6 (Z.abs y) rest).

(** [Date.prototype.toISOString]: [YYYY-MM-DDTHH:mm:ss.sssZ]. *)
Definition toISOString (now : TimeValue) : string :=
  let t := ms_of now in
  let '(y, m, d) := civil_from_days (Day t) in
  pad_year y $ String "-" $ pad 2 m $ String "-" $ pad 2 d $ String "T" $
  pad 2 (HourFromTime t) $ String ":" $ pad 2 (MinFromTime t) $ String ":" $
  pad 2 (SecFromTime t) $ String "." $ pad 3 (msFromTime t) "Z".

(** *** Reading an ISO-8601 timestamp back *)

Fixpoint read_digits (n : nat) (s : string) (acc : Z) : option (Z * string) :=
  match n with
  | O => Some (acc, s)
  | S n' =>
      match s with
      | EmptyString => None
      | String c s' => d ← ascii_to_digit c; read_digits n' s' (10 * acc + d)
      end
  end.

Definition expect (c : ascii) (s : string) : option string :=
  match s with
  | String c' s' => if Ascii.eqb c c' then Some s' else None
  | EmptyString => None
  end.

Definition read_year (s : string) : option (Z * string) :=
  match s with
  | String "+" s' => read_digits 6 s' 0
  | String "-" s' => '(y, r) ← read_digits 6 s' 0; Some (- y, r)
  | _ => read_digits 4 s 0
  end.

(** The extended format with a UTC designator: every field is checked
    against its calendar range, and the result is the time value. *)
Definition parse_iso8601 (s : string) : option Z :=
  '(y, s) ← read_year s;
  s ← expect "-" s;
  '(m, s) ← read_digits 2 s 0;
  s ← expect "-" s;
  '(d, s) ← read_digits 2 s 0;
  s ← expect "T" s;
  '(h, s) ← read_digits 2 s 0;
  s ← expect ":" s;
  '(mi, s) ← read_digits 2 s 0;
  s ← expect ":" s;
  '(sec, s) ← read_digits 2 s 0;
  s ← expect "." s;
  '(ms, s) ← read_digits 3 s 0;
  s ← expect "Z" s;
  if (String.eqb s "") && (1 <=? m) && (m <=? 12) && (1 <=? d)
     && (d <=? days_in_month y m) && (h <=? 23) && (mi <=? 59) && (sec <=? 59)
  then
    let t := days_from_civil y m d * msPerDay + h * msPerHour
             + mi * msPerMinute + sec * msPerSecond + ms in
    if is_time_value t then Some t else None
  else None.

End Date.
Export Date.

(** ** The Firebase SDK, as far as the page uses it

    Handles are opaque: the page only passes them on.  What the service
    answers (auth changes, snapshots, the fate of a write) reaches the page as
    events. *)

Module Firebase.

Inductive FirebaseApp := initializeApp (config : value).
Inductive Firestore := getFirestore (app : FirebaseApp).
Inductive Auth := getAuth (app : FirebaseApp).

(** The user an auth event reports.  The auth service gives every user a
    [uid] that is not empty; the properties that depend on it say so. *)
Record User := mkUser { uid : string }.

Record FirebaseError := mkError { error_message : string }.

Inductive SignIn :=
  | signInWithCustomToken (a : Auth) (token : value)
  | signInAnonymously (a : Auth).

Record CollectionReference := collection {
  collection_firestore : Firestore;
  collection_path : string
}.

(** [doc(collectionRef)]: a reference to a new document under an
    identifier the SDK generates. *)
Record DocumentReference := doc {
  doc_parent : CollectionReference;
  doc_autoId : string
}.

(** One document of a query snapshot: [doc.id] and [doc.data()]. *)
Record QueryDocumentSnapshot := mkDoc {
  doc_id : string;
  doc_data : obj
}.

(** Handles are objects, hence truthy. *)
#[export] Instance firestore_to_boolean : ToBoolean Firestore := fun _ => true.
#[export] Instance auth_to_boolean : ToBoolean Auth := fun _ => true.

(** The options the SDK makes handles from: [getFirestore] throws when the
    options of the app have no [projectId], [getAuth] when they have no
    [apiKey] or one with a colon in it.  An object with both, as non-empty
    strings, is accepted. *)
Definition usable_options (config : value) : bool :=
  match config with
  | VObj m =>
      match m !! "apiKey", m !! "projectId" with
      | Some (VStr apiKey), Some (VStr projectId) =>
          to_boolean apiKey && negb (includes ":" apiKey)
          && to_boolean projectId
      | _, _ => false
      end
  | _ => false
  end.

End Firebase.
Export Firebase.

(** ** The globals the page reads when the module loads *)

Record Globals := mkGlobals {
  __app_id : value;
  __firebase_config : value;
  __initial_auth_token : value;
  (** [JSON.parse]; [None] is a [SyntaxError]. *)
  JSON_parse : string -> option value
}.

(** [typeof v === 'undefined'] *)
Definition is_undefined (v : value) : bool :=
  match v with VUndef => true | _ => false end.

(** ** The component *)

Record Modal := mkModal {
  visible : bool;
  message : string;
  isSuccess : bool
}.

Record State := mkState {
  books : list obj;
  auth : option Auth;
  db : option Firestore;
  userId : option string;
  isAuthReady : bool;
  loading : bool;
  modal : Modal
}.

(** The function handed to [setTimeout] in [handlePurchase]. *)
Inductive TimerCallback := RedirectToRegister.

Record Timer := mkTimer {
  due : Z;
  callback : TimerCallback
}.

(** A [setDoc] whose promise is not settled yet, with what its continuation
    in [handlePurchase] closes over ([bookTitle]). *)
Record PendingWrite := mkPendingWrite {
  write_ref : DocumentReference;
  write_data : obj;
  write_bookTitle : value
}.

(** The world outside the component, as far as the page acts on it:
    - [clock]: milliseconds on the clock of the timers;
    - [console]: the lines given to [console.error], oldest first, each
      with the error logged along with it, if any;
    - [auth_listeners]: the [onAuthStateChanged] registrations;
    - [sign_in]: the sign-in call that has not settled yet;
    - [timers]: what [setTimeout] scheduled and has not fired yet;
    - [navigations]: the destinations given to [navigate], oldest first;
    - [pending]: the [setDoc] calls whose promise has not settled yet;
    - [documents]: the writes the store accepted, oldest first; every one
      goes to a reference of its own, made by [doc] for that write under an
      identifier the SDK draws afresh.  (A write to the reference of an
      earlier record would replace that record in the store; with fresh
      identifiers there is none.) *)
Record World := mkWorld {
  clock : Z;
  console : list (string * option FirebaseError);
  auth_listeners : list Auth;
  sign_in : option SignIn;
  timers : list Timer;
  navigations : list string;
  pending : list PendingWrite;
  documents : list (DocumentReference * obj)
}.

Record Sys := mkSys {
  ui : State;
  world : World
}.

(** *** Handlers run in a state monad over [Sys] *)

Definition M (A : Type) : Type := Sys -> A * Sys.

#[export] Instance M_ret : MRet M := fun A a s => (a, s).
#[export] Instance M_bind : MBind M :=
  fun A B f c s => let '(a, s') := c s in f a s'.

Definition exec {A} (c : M A) (s : Sys) : Sys := snd (c s).

Definition getState : M State := fun s => (ui s, s).
Definition modifyState (f : State -> State) : M unit :=
  fun s => (tt, mkSys (f (ui s)) (world s)).
Definition modifyWorld (f : World -> World) : M unit :=
  fun s => (tt, mkSys (ui s) (f (world s))).

Definition setBooks (b : list obj) : M unit :=
  modifyState (fun st => mkState b (auth st) (db st) (userId st)
                                 (isAuthReady st) (loading st) (modal st)).
Definition setAuth (a : option Auth) : M unit :=
  modifyState (fun st => mkState (books st) a (db st) (userId st)
                                 (isAuthReady st) (loading st) (modal st)).
Definition setDb (d : option Firestore) : M unit :=
  modifyState (fun st => mkState (books st) (auth st) d (userId st)
                                 (isAuthReady st) (loading st) (modal st)).
Definition setUserId (u : option string) : M unit :=
  modifyState (fun st => mkState (books st) (auth st) (db st) u
                                 (isAuthReady st) (loading st) (modal st)).
Definition setIsAuthReady (b : bool) : M unit :=
  modifyState (fun st => mkState (books st) (auth st) (db st) (userId st)
                                 b (loading st) (modal st)).
Definition setLoading (b : bool) : M unit :=
  modifyState (fun st => mkState (books st) (auth st) (db st) (userId st)
                                 (isAuthReady st) b (modal st)).

(** [setModal(prev => f(prev))]; [setModal(m)] is the constant update. *)
Definition setModalWith (f : Modal -> Modal) : M unit :=
  modifyState (fun st => mkState (books st) (auth st) (db st) (userId st)
                                 (isAuthReady st) (loading st) (f (modal st))).
Definition setModal (m : Modal) : M unit := setModalWith (fun _ => m).

Definition console_error (label : string) (e : option FirebaseError) : M unit :=
  modifyWorld (fun w => mkWorld (clock w) (console w ++ [(label, e)])
    (auth_listeners w) (sign_in w) (timers w) (navigations w) (pending w)
    (documents w)).
Definition onAuthStateChanged (a : Auth) : M unit :=
  modifyWorld (fun w => mkWorld (clock w) (console w) (auth_listeners w ++ [a])
    (sign_in w) (timers w) (navigations w) (pending w) (documents w)).
Definition setSignIn (c : option SignIn) : M unit :=
  modifyWorld (fun w => mkWorld (clock w) (console w) (auth_listeners w) c
    (timers w) (navigations w) (pending w) (documents w)).
Definition setTimers (f : list Timer -> list Timer) : M unit :=
  modifyWorld (fun w => mkWorld (clock w) (console w) (auth_listeners w)
    (sign_in w) (f (timers w)) (navigations w) (pending w) (documents w)).
Definition setTimeout (cb : TimerCallback) (delay : Z) : M unit :=
  fun s => setTimers (fun ts => ts ++ [mkTimer (clock (world s) + delay) cb]) s.
Definition navigate (to : string) : M unit :=
  modifyWorld (fun w => mkWorld (clock w) (console w) (auth_listeners w)
    (sign_in w) (timers w) (navigations w ++ [to]) (pending w) (documents w)).
Definition setPending (f : list PendingWrite -> list PendingWrite) : M unit :=
  modifyWorld (fun w => mkWorld (clock w) (console w) (auth_listeners w)
    (sign_in w) (timers w) (navigations w) (f (pending w)) (documents w)).
Definition persist (r : DocumentReference) (data : obj) : M unit :=
  modifyWorld (fun w => mkWorld (clock w) (console w) (auth_listeners w)
    (sign_in w) (timers w) (navigations w) (pending w)
    (documents w ++ [(r, data)])).
Definition advance (dt : Z) : M unit :=
  modifyWorld (fun w => mkWorld (clock w + dt) (console w) (auth_listeners w)
    (sign_in w) (timers w) (navigations w) (pending w) (documents w)).

(** [await setDoc(ref, data)]: the write is handed to the SDK and the rest
    of the handler waits for the promise; the failure of a write is the
    rejection of that promise.  ([collection], [doc] and [setDoc] are taken
    to return: were one of them to throw inside the [try], the [catch]
    would run at once, with nothing handed over.) *)
Definition setDoc (r : DocumentReference) (data : obj) (bookTitle : value) : M unit :=
  setPending (fun ps => ps ++ [mkPendingWrite r data bookTitle]).

(** A [null]-or-string slot as a value. *)
Definition nullable_string (o : option string) : value :=
  match o with None => VNull | Some s => VStr s end.

Section Books.

Context (G : Globals).

Definition appId : value :=
  if is_undefined (__app_id G) then VStr "default-app-id" else __app_id G.

(** [None]: [JSON.parse] threw and the module did not load. *)
Definition firebaseConfig : option value :=
  if is_undefined (__firebase_config G) then Some (VObj ∅)
  else JSON_parse G (ToString (__firebase_config G)).

Definition initialAuthToken : value :=
  if is_undefined (__initial_auth_token G) then VNull else __initial_auth_token G.

Definition initialBooks : list obj :=
  [ {[ "id" := VStr "mern_stack_guide";
       "title" := VStr "MERN STACK";
       "description" := VStr "A complete MERN guide...";
       "price" := VNum 999 ]} ].

Definition initial_state : State :=
  {| books := initialBooks; auth := None; db := None; userId := None;
     isAuthReady := false; loading := true;
     modal := {| visible := false; message := ""; isSuccess := false |} |}.

Definition initial_world : World :=
  {| clock := 0; console := []; auth_listeners := []; sign_in := None;
     timers := []; navigations := []; pending := []; documents := [] |}.

(** *** 1. Firebase initialization and authentication *)

Definition attemptSignIn (authInstance : Auth) : M unit :=
  if to_boolean initialAuthToken
  then setSignIn (Some (signInWithCustomToken authInstance initialAuthToken))
  else setSignIn (Some (signInAnonymously authInstance)).

(** The [catch] of [attemptSignIn]. *)
Definition attemptSignIn_catch (error : FirebaseError) : M unit :=
  setSignIn None;;
  console_error "Firebase Auth Sign-In Error:" (Some error).

(** The callback given to [onAuthStateChanged]. *)
Definition authStateChanged (user : option User) : M unit :=
  match user with
  | Some u => setUserId (Some (uid u))
  | None => setUserId None
  end;;
  setIsAuthReady true;;
  setLoading false.

(** The first effect, given the configuration and its keys.  The calls of
    the SDK are taken to return, which they do on [usable_options]; on
    other options [getFirestore] or [getAuth] throws, outside of any [try],
    and the page is gone. *)
Definition initEffect (config : value) (keys : list string) : M unit :=
  if (List.length keys =? 0)%nat then
    console_error "Firebase config is missing. Data persistence disabled." None;;
    setIsAuthReady true;;
    setLoading false
  else
    let app := initializeApp config in
    let firestore := getFirestore app in
    let authInstance := getAuth app in
    setDb (Some firestore);;
    setAuth (Some authInstance);;
    onAuthStateChanged authInstance;;
    attemptSignIn authInstance.

(** The page after its first render and effects; [None] when the module
    does not load or [Object.keys] throws. *)
Definition mount : option Sys :=
  config ← firebaseConfig;
  keys ← Object_keys config;
  Some (exec (initEffect config keys) (mkSys initial_state initial_world)).

(** *** 2. The books subscription *)

(** The second effect holds a subscription exactly when its guard
    [if (!db || !isAuthReady) return] lets it through. *)
Definition subscribed (st : State) : bool :=
  negb (negb (to_boolean (db st)) || negb (to_boolean (isAuthReady st))).

(** [{ id: doc.id, ...doc.data() }] *)
Definition fetchedBook (d : QueryDocumentSnapshot) : obj :=
  spread {[ "id" := VStr (doc_id d) ]} (doc_data d).

(** The snapshot callback. *)
Definition onSnapshot_next (docs : list QueryDocumentSnapshot) : M unit :=
  let fetchedBooks := map fetchedBook docs in
  setBooks fetchedBooks.

(** The error callback. *)
Definition onSnapshot_error (error : FirebaseError) : M unit :=
  console_error "Error fetching books:" (Some error);;
  setBooks initialBooks.

(** *** 3. Purchases *)

(** [handlePurchase] up to its [await]; [autoId] is the identifier
    [doc(collection(..))] generates and [now] is [new Date()]. *)
Definition handlePurchase (ebookId bookTitle price : value)
    (autoId : string) (now : TimeValue) : M unit :=
  st ← getState;
  if negb (to_boolean (userId st)) then
    setModal {| visible := true;
                message := "You must be logged in to make a purchase. Redirecting you to register...";
                isSuccess := false |};;
    setTimeout RedirectToRegister 1500
  else if negb (to_boolean ebookId) then
    setModal {| visible := true; message := "Ebook ID is missing.";
                isSuccess := false |}
  else
    match db st with
    | None =>
        setModal {| visible := true;
                    message := "Database connection failed. Cannot process purchase.";
                    isSuccess := false |}
    | Some firestore =>
        let purchaseDocPath :=
          "artifacts/" +:+ ToString appId +:+ "/users/"
          +:+ ToString (nullable_string (userId st)) +:+ "/purchases" in
        let newPurchaseRef := doc (collection firestore purchaseDocPath) autoId in
        setDoc newPurchaseRef
          {[ "ebookId" := ebookId;
             "bookTitle" := bookTitle;
             "price" := price;
             "purchaseDate" := VStr (toISOString now);
             "userId" := nullable_string (userId st) ]}
          bookTitle
    end.

(** After the [await]: the promise resolved. *)
Definition handlePurchase_then (bookTitle : value) : M unit :=
  setModal {| visible := true;
              message := "Successfully purchased " +:+ String dquote
                         (ToString bookTitle +:+ String dquote "! Check your library.");
              isSuccess := true |}.

(** After the [await]: the promise rejected, the [catch] block. *)
Definition handlePurchase_catch (error : FirebaseError) : M unit :=
  console_error "Error processing purchase:" (Some error);;
  setModal {| visible := true;
              message := "Purchase failed: " +:+ error_message error;
              isSuccess := false |}.

(** The timer callback of the not-logged-in branch. *)
Definition runTimer (cb : TimerCallback) : M unit :=
  match cb with
  | RedirectToRegister =>
      setModalWith (fun prev => mkModal false (message prev) (isSuccess prev));;
      navigate "/register"
  end.

(** The two closing buttons of the modal. *)
Definition closeModal : M unit :=
  setModal {| visible := false; message := ""; isSuccess := false |}.

(** *** The view *)

Record Card := mkCard {
  card_key : value;
  card_title : value;
  card_description : value;
  card_price : value
}.

Inductive View :=
  | LoadingView
  | CatalogView (status : string) (cards : list Card) (overlay : option (string * bool)).

Definition card_of (book : obj) : Card :=
  {| card_key := get_prop book "id"; card_title := get_prop book "title";
     card_description := get_prop book "description";
     card_price := get_prop book "price" |}.

Definition render (st : State) : View :=
  if loading st then LoadingView
  else
    CatalogView
      (if to_boolean (userId st)
       then "User ID: " +:+ ToString (nullable_string (userId st))
       else "Status: Not authenticated")
      (map card_of (books st))
      (if visible (modal st)
       then Some (message (modal st), isSuccess (modal st)) else None).

(** *** Events and the transition function

    The page reacts to the auth listener, the sign-in promise, the
    snapshot listener, the buy button of card [i], the closing buttons of
    the modal, the passing of time, a timer coming due and a pending write
    settling.  [step] is [None] when the event cannot happen in the state:
    no listener, no subscription, no such card, timer or write, a button
    that is not on the page. *)

Inductive Event :=
  | AuthStateChanged (user : option User)
  | SignInRejected (error : FirebaseError)
  | Snapshot (docs : list QueryDocumentSnapshot)
  | SnapshotError (error : FirebaseError)
  | BuyNow (i : nat) (autoId : string) (now : TimeValue)
  | CloseModal
  | Tick (dt : Z)
  | TimerFired (i : nat)
  | WriteResolved (i : nat)
  | WriteRejected (i : nat) (error : FirebaseError).

(** The timer in slot [i] fires once it is due, and is gone afterwards. *)
Definition fireTimer (i : nat) (s : Sys) : option Sys :=
  t ← timers (world s) !! i;
  if due t <=? clock (world s)
  then Some (exec (setTimers (delete i);; runTimer (callback t)) s)
  else None.

(** The pending write in slot [i] settles. *)
Definition settleWrite (i : nat) (outcome : option FirebaseError) (s : Sys)
    : option Sys :=
  w ← pending (world s) !! i;
  match outcome with
  | None =>
      Some (exec (setPending (delete i);;
                  persist (write_ref w) (write_data w);;
                  handlePurchase_then (write_bookTitle w)) s)
  | Some error =>
      Some (exec (setPending (delete i);; handlePurchase_catch error) s)
  end.

Definition step (ev : Event) (s : Sys) : option Sys :=
  match ev with
  | AuthStateChanged user =>
      match auth_listeners (world s) with
      | [] => None
      | _ :: _ => Some (exec (authStateChanged user) s)
      end
  | SignInRejected error =>
      match sign_in (world s) with
      | None => None
      | Some _ => Some (exec (attemptSignIn_catch error) s)
      end
  | Snapshot docs =>
      if subscribed (ui s) then Some (exec (onSnapshot_next docs) s) else None
  | SnapshotError error =>
      if subscribed (ui s) then Some (exec (onSnapshot_error error) s) else None
  | BuyNow i autoId now =>
      if loading (ui s) then None
      else
        book ← books (ui s) !! i;
        Some (exec (handlePurchase (get_prop book "id") (get_prop book "title")
                                   (get_prop book "price") autoId now) s)
  | CloseModal =>
      if negb (loading (ui s)) && visible (modal (ui s))
      then Some (exec closeModal s) else None
  | Tick dt =>
      if 0 <=? dt then Some (exec (advance dt) s) else None
  | TimerFired i => fireTimer i s
  | WriteResolved i => settleWrite i None s
  | WriteRejected i error => settleWrite i (Some error) s
  end.

(** [reaches evs s]: the mounted page gets to [s] through the events [evs]. *)
Inductive reaches : list Event -> Sys -> Prop :=
  | reaches_mount s : mount = Some s -> reaches [] s
  | reaches_step evs s ev s' :
      reaches evs s -> step ev s = Some s' -> reaches (evs ++ [ev]) s'.

Definition is_Snapshot (ev : Event) : bool :=
  match ev with Snapshot _ => true | _ => false end.

(** Running a list of events, and the page after mounting and a list of
    events; [None] when some event is not enabled where it comes. *)
Fixpoint run (evs : list Event) (s : Sys) : option Sys :=
  match evs with
  | [] => Some s
  | ev :: evs' => s' ← step ev s; run evs' s'
  end.

Definition trace (evs : list Event) : option Sys := s ← mount; run evs s.

(** *** Vocabulary for the properties *)

(** The purchases collection of an identity. *)
Definition purchasesPath (uid : string) : string :=
  "artifacts/" +:+ ToString appId +:+ "/users/" +:+ uid +:+ "/purchases".

(** A record written for the identity [uid]: it names that identity, which
    is not empty, and lies in that identity's purchases collection. *)
Definition owned_by (uid : string) (r : DocumentReference) (data : obj) : Prop :=
  uid <> "" /\ data !! "userId" = Some (VStr uid)
  /\ collection_path (doc_parent r) = purchasesPath uid.

End Books.

(** ** Sample environments and data *)

Module Samples.

Definition quoted (s : string) : string :=
  String dquote (s +:+ String dquote "").

(** The configuration the hosting canvas supplies, as JSON text and as the
    object that text denotes. *)
Definition canvas_config_text : string :=
  "{" +:+ quoted "apiKey" +:+ ":" +:+ quoted "AIzaSyEdubooksDemoKey"
  +:+ "," +:+ quoted "projectId" +:+ ":" +:+ quoted "edubooks" +:+ "}".

Definition canvas_config : value :=
  VObj {[ "apiKey" := VStr "AIzaSyEdubooksDemoKey";
          "projectId" := VStr "edubooks" ]}.

(** Inside the hosting canvas: a namespace and a configuration are given.
    [JSON_parse] is [JSON.parse] on the one text the page gives it there. *)
Definition canvas : Globals :=
  {| __app_id := VStr "edubooks";
     __firebase_config := VStr canvas_config_text;
     __initial_auth_token := VUndef;
     JSON_parse := fun text =>
       if String.eqb text canvas_config_text then Some canvas_config
       else None |}.

(** Outside it: none of the globals is defined. *)
Definition standalone : Globals :=
  {| __app_id := VUndef; __firebase_config := VUndef;
     __initial_auth_token := VUndef; JSON_parse := fun _ => None |}.

(** 2023-11-14T22:13:20.123Z *)
Definition an_instant : TimeValue := mkTimeValue 1700000000123 eq_refl.

Definition a_firestore : Firestore :=
  getFirestore (initializeApp canvas_config).

(** A ready page showing the default catalogue, with a given identity. *)
Definition ready (u : option string) : Sys :=
  {| ui := {| books := initialBooks; auth := None; db := Some a_firestore;
              userId := u; isAuthReady := true; loading := false;
              modal := {| visible := false; message := ""; isSuccess := false |} |};
     world := initial_world |}.

End Samples.

(** ** More of the page: the subscription target, the modal, readings of a
    trace *)

Section Page.

Context (G : Globals).

(** The path of the second effect, [booksCollectionPath]. *)
Definition booksCollectionPath : string :=
  "artifacts/" +:+ ToString (appId G) +:+ "/public/data/books".

(** [query(collection(db, booksCollectionPath))]: what the second effect
    listens to, when its guard [if (!db || !isAuthReady) return] lets it
    through. *)
Definition booksQuery (st : State) : option CollectionReference :=
  if negb (to_boolean (db st)) || negb (to_boolean (isAuthReady st)) then None
  else match db st with
       | Some firestore => Some (collection firestore booksCollectionPath)
       | None => None
       end.

(** The [Modal] component: icon, title and colours follow [isSuccess]. *)
Inductive Icon :=
  | CheckCircle (className : string)
  | X (className : string).

Record ModalView := mkModalView {
  modal_icon : Icon;
  modal_title : string;
  modal_bgColor : string;
  modal_message : string;
  modal_okClassName : string
}.

Definition Modal_component (message : string) (isSuccess : bool) : ModalView :=
  let icon := if isSuccess then CheckCircle "h-6 w-6 text-green-500"
              else X "h-6 w-6 text-red-500" in
  let title := if isSuccess then "Success!" else "Error" in
  let bgColor := if isSuccess then "bg-green-500" else "bg-red-500" in
  {| modal_icon := icon; modal_title := title; modal_bgColor := bgColor;
     modal_message := message;
     modal_okClassName :=
       if isSuccess then "bg-green-100 text-green-700 hover:bg-green-200"
       else "bg-red-100 text-red-700 hover:bg-red-200" |}.

(** [{modal.visible && <Modal .. />}], in the page past loading. *)
Definition renderModal (st : State) : option ModalView :=
  if loading st then None
  else if visible (modal st)
       then Some (Modal_component (message (modal st)) (isSuccess (modal st)))
       else None.

(** The write [handlePurchase] hands over once its three checks have
    passed, for the identity [uid] and the handle [firestore]. *)
Definition purchase_write (uid : string) (firestore : Firestore)
    (ebookId bookTitle price : value) (autoId : string) (now : TimeValue)
    : PendingWrite :=
  {| write_ref := doc (collection firestore (purchasesPath G uid)) autoId;
     write_data :=
       {[ "ebookId" := ebookId;
          "bookTitle" := bookTitle;
          "price" := price;
          "purchaseDate" := VStr (toISOString now);
          "userId" := VStr uid ]};
     write_bookTitle := bookTitle |}.

(** *** Readings of a list of events *)

Definition is_AuthStateChanged (ev : Event) : bool :=
  match ev with AuthStateChanged _ => true | _ => false end.

Definition is_SignInRejected (ev : Event) : bool :=
  match ev with SignInRejected _ => true | _ => false end.

Definition is_BuyNow (ev : Event) : bool :=
  match ev with BuyNow _ _ _ => true | _ => false end.

(** The user of the last auth event, starting from [u]. *)
Fixpoint identity_after (evs : list Event) (u : option string) : option string :=
  match evs with
  | [] => u
  | AuthStateChanged user :: evs' => identity_after evs' (uid <$> user)
  | _ :: evs' => identity_after evs' u
  end.

(** What the last subscription event left, starting from [b]. *)
Fixpoint catalogue_after (evs : list Event) (b : list obj) : list obj :=
  match evs with
  | [] => b
  | Snapshot docs :: evs' => catalogue_after evs' (map fetchedBook docs)
  | SnapshotError _ :: evs' => catalogue_after evs' initialBooks
  | _ :: evs' => catalogue_after evs' b
  end.

(** The identifiers [doc] generated for the purchases of a list of events,
    one for each click on a buy button. *)
Definition autoIds (evs : list Event) : list string :=
  omap (fun ev => match ev with
                  | BuyNow _ autoId _ => Some autoId
                  | _ => None
                  end) evs.

(** The references written to so far: those of the records persisted and
    those of the writes pending. *)
Definition written_refs (s : Sys) : list DocumentReference :=
  (documents (world s)).*1 ++ (write_ref <$> pending (world s)).

(** An event that does not report a visitor without a non-empty [uid]. *)
Definition keeps_signed_in (ev : Event) : bool :=
  match ev with
  | AuthStateChanged user => to_boolean (uid <$> user)
  | _ => true
  end.

End Page.

(** * Properties *)

(** ** Strings *)

Section StringFacts.

Lemma startsWith_app (p s : string) : startsWith p (p +:+ s) = true.
Proof.
  induction p as [|a p IH]; simpl; [done|].
  by rewrite Ascii.eqb_refl, IH.
Qed.

Lemma includes_app_r (sub pre s : string) :
  includes sub s = true -> includes sub (pre +:+ s) = true.
Proof.
  intros Hs. induction pre as [|a pre IH]; simpl; [done|].
  rewrite IH. apply orb_true_r.
Qed.

Lemma includes_here (sub post : string) : includes sub (sub +:+ post) = true.
Proof.
  assert (forall s, includes sub s
                    = startsWith sub s
                      || match s with
                         | EmptyString => false
                         | String _ s' => includes sub s'
                         end) as -> by (by intros []).
  by rewrite startsWith_app.
Qed.

Lemma includes_refl (sub : string) : includes sub sub = true.
Proof.
  assert (forall p, startsWith p p = true) as Hp
    by (induction p as [|a p IH]; simpl; [done|by rewrite Ascii.eqb_refl]).
  destruct sub; simpl; [done|]. by rewrite Ascii.eqb_refl, Hp.
Qed.

(** A string occurs in whatever is built around it. *)
Lemma includes_infix (pre sub post : string) :
  includes sub (pre +:+ sub +:+ post) = true.
Proof. apply includes_app_r, includes_here. Qed.

End StringFacts.

(** ** Dates *)

Section DateFacts.

Lemma digit_roundtrip (d : Z) :
  0 <= d <= 9 -> ascii_to_digit (digit_to_ascii d) = Some d.
Proof.
  intros H.
  assert (d = 0 \/ d = 1 \/ d = 2 \/ d = 3 \/ d = 4 \/ d = 5 \/ d = 6
          \/ d = 7 \/ d = 8 \/ d = 9) as Hd by lia.
  repeat destruct Hd as [->|Hd]; try subst d; reflexivity.
Qed.

Lemma read_digits_pad (n : nat) : forall (v : Z) (rest : string) (acc : Z),
  read_digits n (pad n v rest) acc
  = Some (acc * 10 ^ Z.of_nat n + v mod 10 ^ Z.of_nat n, rest).
Proof.
  induction n as [|n IH]; intros v rest acc.
  - simpl. rewrite Z.mod_1_r. do 2 f_equal. lia.
  - cbn [pad read_digits].
    rewrite digit_roundtrip
      by (pose proof (Z.mod_pos_bound (v / 10 ^ Z.of_nat n) 10); lia).
    cbn [mbind option_bind]. rewrite IH. do 2 f_equal.
    rewrite Nat2Z.inj_succ, Z.pow_succ_r by lia.
    rewrite (Z.mul_comm 10 (10 ^ Z.of_nat n)).
    rewrite Z.rem_mul_r by lia. lia.
Qed.

Lemma read_digits_pad_small (n : nat) (v : Z) (rest : string) :
  0 <= v < 10 ^ Z.of_nat n ->
  read_digits n (pad n v rest) 0 = Some (v, rest).
Proof.
  intros H. rewrite read_digits_pad, Z.mod_small by done. do 2 f_equal.
Qed.

(** Within one 400-year era the day of the era fixes the year of the era and
    the day of that year; day 365 only exists in a leap year. *)
Lemma year_of_era_bounds (doe : Z) :
  0 <= doe <= 146096 ->
  let yoe := (doe - doe / 1460 + doe / 36524 - doe / 146096) / 365 in
  let doy := doe - (365 * yoe + yoe / 4 - yoe / 100) in
  0 <= yoe <= 399 /\ 0 <= doy <= 365
  /\ (doy = 365 -> (yoe + 1) mod 4 = 0 /\ ((yoe + 1) mod 100 <> 0 \/ yoe = 399)).
Proof. intros H. cbv zeta. Z.div_mod_to_equations; lia. Qed.

Lemma civil_from_days_spec (z y m d : Z) :
  civil_from_days z = (y, m, d) ->
  1 <= m <= 12 /\ 1 <= d <= days_in_month y m /\ days_from_civil y m d = z
  /\ (z + 719468) / 146097 * 400 <= y <= (z + 719468) / 146097 * 400 + 400.
Proof.
  unfold civil_from_days.
  set (z' := z + 719468). set (era := z' / 146097).
  set (doe := z' - era * 146097).
  assert (Hdoe : 0 <= doe <= 146096)
    by (subst doe era; Z.div_mod_to_equations; lia).
  pose proof (year_of_era_bounds doe Hdoe) as Hy. cbv zeta in Hy.
  set (yoe := (doe - doe / 1460 + doe / 36524 - doe / 146096) / 365) in *.
  set (doy := doe - (365 * yoe + yoe / 4 - yoe / 100)) in *.
  set (mp := (5 * doy + 2) / 153).
  destruct Hy as (Hyoe & Hdoy & Hleap).
  assert (Hmp : 0 <= mp <= 11) by (subst mp; Z.div_mod_to_equations; lia).
  assert (Hera : (yoe + era * 400) / 400 = era)
    by (Z.div_mod_to_equations; lia).
  intros [= <- <- <-].
  split; [destruct (mp <? 10) eqn:E; lia|].
  split.
  - assert (Hdef : mp = (5 * doy + 2) / 153) by done.
    clearbody mp doy. unfold days_in_month, is_leap_year.
    destruct (Z.ltb_spec mp 10).
    + assert ((mp + 3 <=? 2) = false) as -> by lia.
      repeat match goal with
             | |- context [Z.eqb ?a ?b] => destruct (Z.eqb_spec a b)
             end; cbn [orb andb negb]; Z.div_mod_to_equations; lia.
    + assert ((mp - 9 <=? 2) = true) as -> by lia.
      repeat match goal with
             | |- context [Z.eqb ?a ?b] => destruct (Z.eqb_spec a b)
             end; cbn [orb andb negb]; Z.div_mod_to_equations; lia.
  - split; [|destruct ((if mp <? 10 then mp + 3 else mp - 9) <=? 2); lia].
    unfold days_from_civil.
    destruct (mp <? 10) eqn:E.
    + assert ((mp + 3 <=? 2) = false) as -> by lia.
      assert ((2 <? mp + 3) = true) as -> by lia.
      replace (mp + 3 - 3) with mp by lia.
      rewrite Hera.
      replace (yoe + era * 400 - era * 400) with yoe by lia.
      subst doy doe z'. lia.
    + assert ((mp - 9 <=? 2) = true) as -> by lia.
      assert ((2 <? mp - 9) = false) as -> by lia.
      replace (mp - 9 + 9) with mp by lia.
      replace (yoe + era * 400 + 1 - 1) with (yoe + era * 400) by lia.
      rewrite Hera.
      replace (yoe + era * 400 - era * 400) with yoe by lia.
      subst doy doe z'. lia.
Qed.

(** A time value is its day, hour, minute, second and millisecond. *)
Lemma time_decomposition (t : Z) :
  Day t * msPerDay + (t / msPerHour) mod 24 * msPerHour
  + (t / msPerMinute) mod 60 * msPerMinute
  + (t / msPerSecond) mod 60 * msPerSecond + t mod msPerSecond = t.
Proof.
  unfold Day, msPerDay, msPerHour, msPerMinute, msPerSecond.
  assert (t / 60000 = t / 1000 / 60) as -> by (Z.div_mod_to_equations; lia).
  assert (t / 3600000 = t / 1000 / 60 / 60) as ->
    by (Z.div_mod_to_equations; lia).
  assert (t / 86400000 = t / 1000 / 60 / 60 / 24) as ->
    by (Z.div_mod_to_equations; lia).
  generalize (Z.div_mod t 1000). set (s := t / 1000).
  generalize (Z.div_mod s 60). set (mi := s / 60).
  generalize (Z.div_mod mi 60). set (h := mi / 60).
  generalize (Z.div_mod h 24). lia.
Qed.

Lemma read_year_digit (d : Z) (r : string) :
  0 <= d <= 9 ->
  read_year (String (digit_to_ascii d) r)
  = read_digits 4 (String (digit_to_ascii d) r) 0.
Proof.
  intros H.
  assert (d = 0 \/ d = 1 \/ d = 2 \/ d = 3 \/ d = 4 \/ d = 5 \/ d = 6
          \/ d = 7 \/ d = 8 \/ d = 9) as Hd by lia.
  repeat destruct Hd as [->|Hd]; try subst d; reflexivity.
Qed.

Lemma read_year_pad_year (y : Z) (rest : string) :
  -999999 <= y <= 999999 -> read_year (pad_year y rest) = Some (y, rest).
Proof.
  intros Hy. unfold pad_year.
  destruct ((0 <=? y) && (y <=? 9999)) eqn:E.
  - apply andb_true_iff in E as [H0 H9]. apply Z.leb_le in H0, H9.
    change (pad 4 y rest)
      with (String (digit_to_ascii ((y / 10 ^ Z.of_nat 3) mod 10)) (pad 3 y rest)).
    rewrite read_year_digit
      by (pose proof (Z.mod_pos_bound (y / 10 ^ Z.of_nat 3) 10); lia).
    change (String (digit_to_ascii ((y / 10 ^ Z.of_nat 3) mod 10)) (pad 3 y rest))
      with (pad 4 y rest).
    apply read_digits_pad_small. simpl. lia.
  - destruct (0 <=? y) eqn:E0.
    + apply Z.leb_le in E0. cbn [read_year].
      rewrite read_digits_pad_small by (simpl; lia).
      do 2 f_equal. lia.
    + apply Z.leb_gt in E0. cbn [read_year].
      rewrite read_digits_pad_small by (simpl; lia).
      cbn. do 2 f_equal. lia.
Qed.

(** What [toISOString] prints reads back as the same instant: the output
    is a well-formed ISO-8601 timestamp. *)
Lemma parse_toISOString (now : TimeValue) :
  parse_iso8601 (toISOString now) = Some (ms_of now).
Proof.
  destruct now as [t Ht]. unfold toISOString, parse_iso8601. cbn [ms_of].
  destruct (civil_from_days (Day t)) as [[y m] d] eqn:Hc.
  apply civil_from_days_spec in Hc as (Hm & Hd & Hdays & Hyr).
  assert (Ht' := Ht). unfold is_time_value in Ht'.
  apply andb_true_iff in Ht' as [Hlo Hhi]. apply Z.leb_le in Hlo, Hhi.
  assert (Hy : -999999 <= y <= 999999)
    by (unfold Day, msPerDay in Hyr; Z.div_mod_to_equations; lia).
  assert (Hdm : days_in_month y m <= 31)
    by (unfold days_in_month;
        repeat match goal with |- context [if ?b then _ else _] => destruct b end;
        lia).
  pose proof (Z.mod_pos_bound (t / msPerHour) 24).
  pose proof (Z.mod_pos_bound (t / msPerMinute) 60).
  pose proof (Z.mod_pos_bound (t / msPerSecond) 60).
  pose proof (Z.mod_pos_bound t msPerSecond).
  unfold HourFromTime, MinFromTime, SecFromTime, msFromTime.
  rewrite read_year_pad_year by done. cbn [mbind option_bind expect Ascii.eqb Bool.eqb].
  repeat (rewrite read_digits_pad_small by (simpl; unfold msPerSecond in *; lia);
          cbn [mbind option_bind expect Ascii.eqb Bool.eqb]).
  assert ((String.eqb "" "" && (1 <=? m) && (m <=? 12) && (1 <=? d)
           && (d <=? days_in_month y m) && ((t / msPerHour) mod 24 <=? 23)
           && ((t / msPerMinute) mod 60 <=? 59)
           && ((t / msPerSecond) mod 60 <=? 59)) = true) as ->.
  { repeat (apply andb_true_intro; split); try apply Z.leb_le; try lia; done. }
  assert (days_from_civil y m d * msPerDay + (t / msPerHour) mod 24 * msPerHour
          + (t / msPerMinute) mod 60 * msPerMinute
          + (t / msPerSecond) mod 60 * msPerSecond + t mod msPerSecond = t) as ->.
  { rewrite Hdays. apply time_decomposition. }
  by rewrite Ht.
Qed.

End DateFacts.


(** ** The purchase handler, branch by branch *)

Section PurchaseBranches.

Context (G : Globals).
Implicit Types (s : Sys) (ebookId bookTitle price : value).

Lemma handlePurchase_not_logged_in s ebookId bookTitle price autoId now :
  to_boolean (userId (ui s)) = false ->
  exec (handlePurchase G ebookId bookTitle price autoId now) s
  = exec (setModal (mkModal true
            "You must be logged in to make a purchase. Redirecting you to register..."
            false);;
          setTimeout RedirectToRegister 1500) s.
Proof.
  intros H. unfold exec, handlePurchase, mbind, M_bind, getState.
  by rewrite H.
Qed.

Lemma handlePurchase_no_ebookId s ebookId bookTitle price autoId now :
  to_boolean (userId (ui s)) = true ->
  to_boolean ebookId = false ->
  exec (handlePurchase G ebookId bookTitle price autoId now) s
  = exec (setModal (mkModal true "Ebook ID is missing." false)) s.
Proof.
  intros H1 H2. unfold exec, handlePurchase, mbind, M_bind, getState.
  by rewrite H1, H2.
Qed.

Lemma handlePurchase_no_db s ebookId bookTitle price autoId now :
  to_boolean (userId (ui s)) = true ->
  to_boolean ebookId = true ->
  db (ui s) = None ->
  exec (handlePurchase G ebookId bookTitle price autoId now) s
  = exec (setModal (mkModal true
            "Database connection failed. Cannot process purchase." false)) s.
Proof.
  intros H1 H2 H3. unfold exec, handlePurchase, mbind, M_bind, getState.
  by rewrite H1, H2, H3.
Qed.

Lemma handlePurchase_write s ebookId bookTitle price autoId now firestore :
  to_boolean (userId (ui s)) = true ->
  to_boolean ebookId = true ->
  db (ui s) = Some firestore ->
  exec (handlePurchase G ebookId bookTitle price autoId now) s
  = exec (setDoc
            (doc (collection firestore
                    ("artifacts/" +:+ ToString (appId G) +:+ "/users/"
                     +:+ ToString (nullable_string (userId (ui s)))
                     +:+ "/purchases")) autoId)
            {[ "ebookId" := ebookId;
               "bookTitle" := bookTitle;
               "price" := price;
               "purchaseDate" := VStr (toISOString now);
               "userId" := nullable_string (userId (ui s)) ]}
            bookTitle) s.
Proof.
  intros H1 H2 H3. unfold exec, handlePurchase, mbind, M_bind, getState.
  by rewrite H1, H2, H3.
Qed.

(** A truthy [userId] slot holds a non-empty string. *)
Lemma userId_truthy (o : option string) :
  to_boolean o = true <-> exists uid, o = Some uid /\ uid <> "".
Proof.
  split.
  - destruct o as [[|a u]|]; [done| |done]. intros _. by eexists.
  - intros (uid & -> & Hne). by destruct uid.
Qed.

(** The four ways out of the handler: the three rejections, in the order
    of the checks, and the write. *)
Lemma handlePurchase_cases s ebookId bookTitle price autoId now :
  let s1 := exec (handlePurchase G ebookId bookTitle price autoId now) s in
  (to_boolean (userId (ui s)) = false
   /\ s1 = exec (setModal (mkModal true
                   "You must be logged in to make a purchase. Redirecting you to register..."
                   false);;
                 setTimeout RedirectToRegister 1500) s)
  \/ (to_boolean (userId (ui s)) = true /\ to_boolean ebookId = false
      /\ s1 = exec (setModal (mkModal true "Ebook ID is missing." false)) s)
  \/ (to_boolean (userId (ui s)) = true /\ to_boolean ebookId = true
      /\ db (ui s) = None
      /\ s1 = exec (setModal (mkModal true
                      "Database connection failed. Cannot process purchase."
                      false)) s)
  \/ (exists uid firestore,
        userId (ui s) = Some uid /\ uid <> "" /\ to_boolean ebookId = true
        /\ db (ui s) = Some firestore
        /\ s1 = exec (setDoc
                        (doc (collection firestore (purchasesPath G uid)) autoId)
                        {[ "ebookId" := ebookId;
                           "bookTitle" := bookTitle;
                           "price" := price;
                           "purchaseDate" := VStr (toISOString now);
                           "userId" := VStr uid ]}
                        bookTitle) s).
Proof.
  cbv zeta.
  destruct (to_boolean (userId (ui s))) eqn:H1;
    [|left; by rewrite handlePurchase_not_logged_in].
  destruct (to_boolean ebookId) eqn:H2;
    [|right; left; by rewrite handlePurchase_no_ebookId].
  destruct (db (ui s)) as [firestore|] eqn:H3;
    [|right; right; left; by rewrite handlePurchase_no_db].
  do 3 right. rewrite (handlePurchase_write _ _ _ _ _ _ firestore) by done.
  apply userId_truthy in H1 as (uid & Hu & Hne).
  exists uid, firestore. by rewrite Hu.
Qed.

(** Adding a write is not leaving the writes alone. *)
Lemma snoc_neq {A} (l : list A) (x : A) : l <> l ++ [x].
Proof.
  intros E. apply (f_equal length) in E. rewrite length_app in E.
  cbn in E. lia.
Qed.

End PurchaseBranches.

(** ** Settling a write, firing a timer *)

Section Continuations.

Lemma settleWrite_resolved (s : Sys) (i : nat) (w : PendingWrite) :
  pending (world s) !! i = Some w ->
  exists s', settleWrite i None s = Some s'
    /\ documents (world s') = documents (world s) ++ [(write_ref w, write_data w)]
    /\ pending (world s') = delete i (pending (world s))
    /\ modal (ui s')
       = mkModal true
           ("Successfully purchased " +:+ String dquote
              (ToString (write_bookTitle w) +:+ String dquote "! Check your library."))
           true
    /\ books (ui s') = books (ui s) /\ userId (ui s') = userId (ui s)
    /\ db (ui s') = db (ui s) /\ loading (ui s') = loading (ui s)
    /\ isAuthReady (ui s') = isAuthReady (ui s)
    /\ console (world s') = console (world s)
    /\ timers (world s') = timers (world s)
    /\ navigations (world s') = navigations (world s)
    /\ auth_listeners (world s') = auth_listeners (world s)
    /\ sign_in (world s') = sign_in (world s)
    /\ clock (world s') = clock (world s).
Proof.
  intros H. unfold settleWrite. rewrite H. cbn [mbind option_bind].
  eexists. split; [reflexivity|]. by repeat split.
Qed.

Lemma settleWrite_rejected (s : Sys) (i : nat) (w : PendingWrite)
    (error : FirebaseError) :
  pending (world s) !! i = Some w ->
  exists s', settleWrite i (Some error) s = Some s'
    /\ documents (world s') = documents (world s)
    /\ pending (world s') = delete i (pending (world s))
    /\ modal (ui s')
       = mkModal true ("Purchase failed: " +:+ error_message error) false
    /\ books (ui s') = books (ui s) /\ userId (ui s') = userId (ui s)
    /\ db (ui s') = db (ui s) /\ loading (ui s') = loading (ui s)
    /\ isAuthReady (ui s') = isAuthReady (ui s)
    /\ console (world s')
       = console (world s) ++ [("Error processing purchase:", Some error)]
    /\ timers (world s') = timers (world s)
    /\ navigations (world s') = navigations (world s)
    /\ auth_listeners (world s') = auth_listeners (world s)
    /\ sign_in (world s') = sign_in (world s)
    /\ clock (world s') = clock (world s).
Proof.
  intros H. unfold settleWrite. rewrite H. cbn [mbind option_bind].
  eexists. split; [reflexivity|]. by repeat split.
Qed.

Lemma settleWrite_None (s : Sys) (i : nat) (o : option FirebaseError) :
  pending (world s) !! i = None -> settleWrite i o s = None.
Proof. intros H. unfold settleWrite. by rewrite H. Qed.

Lemma fireTimer_due (s : Sys) (i : nat) (t : Timer) :
  timers (world s) !! i = Some t ->
  due t <= clock (world s) ->
  exists s', fireTimer i s = Some s'
    /\ modal (ui s')
       = mkModal false (message (modal (ui s))) (isSuccess (modal (ui s)))
    /\ navigations (world s') = navigations (world s) ++ ["/register"]
    /\ timers (world s') = delete i (timers (world s))
    /\ pending (world s') = pending (world s)
    /\ documents (world s') = documents (world s)
    /\ books (ui s') = books (ui s) /\ userId (ui s') = userId (ui s)
    /\ db (ui s') = db (ui s) /\ loading (ui s') = loading (ui s)
    /\ isAuthReady (ui s') = isAuthReady (ui s)
    /\ console (world s') = console (world s)
    /\ auth_listeners (world s') = auth_listeners (world s)
    /\ sign_in (world s') = sign_in (world s)
    /\ clock (world s') = clock (world s).
Proof.
  intros H Hdue. unfold fireTimer. rewrite H. cbn [mbind option_bind].
  apply Z.leb_le in Hdue. rewrite Hdue.
  destruct t as [d []]. eexists. split; [reflexivity|]. by repeat split.
Qed.

Lemma fireTimer_early (s : Sys) (i : nat) (t : Timer) :
  timers (world s) !! i = Some t ->
  clock (world s) < due t ->
  fireTimer i s = None.
Proof.
  intros H Hdue. unfold fireTimer. rewrite H. cbn [mbind option_bind].
  apply Z.leb_gt in Hdue. by rewrite Hdue.
Qed.

End Continuations.

(** ** The claims about purchases and notifications *)

Section PurchaseClaims.

Context (G : Globals).

(** C1. A purchase with an identity present (the [userId] that the auth
    service reported, a non-empty string), a non-empty [entryId] (any value
    that passes the handler's test [!ebookId]) and a storage handle hands
    exactly one write to the store and persists nothing yet; the record has
    the five fields [ebookId], [bookTitle], [price], [purchaseDate] and
    [userId], set to the arguments, to the identity and to a timestamp that
    parses as ISO-8601 to the instant of the call, under the identity's
    purchases collection.  When that write succeeds, exactly this one record
    is persisted and the success notification, visible, names the title. *)
Theorem purchase_creates_record
    (s : Sys) (uid : string) (ebookId bookTitle price : value)
    (firestore : Firestore) (autoId : string) (now : TimeValue) :
  userId (ui s) = Some uid ->
  uid <> "" ->
  to_boolean ebookId = true ->
  db (ui s) = Some firestore ->
  let s1 := exec (handlePurchase G ebookId bookTitle price autoId now) s in
  let w :=
    {| write_ref :=
         doc (collection firestore (purchasesPath G uid)) autoId;
       write_data :=
         {[ "ebookId" := ebookId;
            "bookTitle" := bookTitle;
            "price" := price;
            "purchaseDate" := VStr (toISOString now);
            "userId" := VStr uid ]};
       write_bookTitle := bookTitle |} in
  pending (world s1) = pending (world s) ++ [w]
  /\ documents (world s1) = documents (world s)
  /\ (exists iso, get_prop (write_data w) "purchaseDate" = VStr iso
                  /\ parse_iso8601 iso = Some (ms_of now))
  /\ get_prop (write_data w) "userId" = VStr uid
  /\ get_prop (write_data w) "ebookId" = ebookId
  /\ get_prop (write_data w) "bookTitle" = bookTitle
  /\ get_prop (write_data w) "price" = price
  /\ forall (s2 : Sys) (i : nat),
       pending (world s2) !! i = Some w ->
       exists s3, settleWrite i None s2 = Some s3
         /\ documents (world s3)
            = documents (world s2) ++ [(write_ref w, write_data w)]
         /\ pending (world s3) = delete i (pending (world s2))
         /\ visible (modal (ui s3)) = true
         /\ isSuccess (modal (ui s3)) = true
         /\ includes (ToString bookTitle) (message (modal (ui s3))) = true.
Proof.
  intros Hu Hne He Hdb. cbv zeta.
  rewrite (handlePurchase_write _ _ _ _ _ _ _ firestore);
    [| by apply userId_truthy; eauto | done | done].
  rewrite Hu. cbn [nullable_string ToString].
  split; [reflexivity|]. split; [reflexivity|].
  split; [eexists; split; [reflexivity|apply parse_toISOString]|].
  do 4 (split; [reflexivity|]).
  intros s2 i Hi.
  destruct (settleWrite_resolved _ _ _ Hi) as (s3 & Hs3 & Hd & Hp & Hm & _).
  exists s3. rewrite Hm. cbn [visible isSuccess message write_bookTitle].
  repeat split; try done.
  exact (includes_infix ("Successfully purchased " +:+ String dquote "")
           (ToString bookTitle) (String dquote "! Check your library.")).
Qed.

(** C2. A purchase with no identity ([userId] is [null]) attempts no write:
    the pending and persisted writes are as before.  It shows the
    non-success notice that login is required and schedules one timer,
    1500 ms ahead.  That timer cannot fire before its time; when it fires it
    hides the notification, navigates to [/register] once and is gone. *)
Theorem purchase_without_identity
    (s : Sys) (ebookId bookTitle price : value) (autoId : string)
    (now : TimeValue) :
  userId (ui s) = None ->
  let s1 := exec (handlePurchase G ebookId bookTitle price autoId now) s in
  let t := mkTimer (clock (world s) + 1500) RedirectToRegister in
  pending (world s1) = pending (world s)
  /\ documents (world s1) = documents (world s)
  /\ modal (ui s1)
     = mkModal true
         "You must be logged in to make a purchase. Redirecting you to register..."
         false
  /\ timers (world s1) = timers (world s) ++ [t]
  /\ navigations (world s1) = navigations (world s)
  /\ forall (s2 : Sys) (i : nat),
       timers (world s2) !! i = Some t ->
       (clock (world s2) < clock (world s) + 1500 -> fireTimer i s2 = None)
       /\ (clock (world s) + 1500 <= clock (world s2) ->
           exists s3, fireTimer i s2 = Some s3
             /\ visible (modal (ui s3)) = false
             /\ navigations (world s3) = navigations (world s2) ++ ["/register"]
             /\ timers (world s3) = delete i (timers (world s2))
             /\ pending (world s3) = pending (world s2)
             /\ documents (world s3) = documents (world s2)).
Proof.
  intros Hu. cbv zeta.
  rewrite handlePurchase_not_logged_in by (by rewrite Hu).
  do 5 (split; [reflexivity|]).
  intros s2 i Hi. split.
  - by apply (fireTimer_early _ _ _ Hi).
  - intros Hdue.
    destruct (fireTimer_due _ _ _ Hi Hdue)
      as (s3 & Hs3 & Hm & Hn & Ht & Hp & Hd & _).
    exists s3. rewrite Hm. by repeat split.
Qed.

(** C5. A purchase that reaches the write has passed the three checks.  It
    persists nothing by itself, and when its write fails nothing is
    persisted either: the documents and the catalogue are as before, the
    write is no longer pending, and the notification, visible and not a
    success, carries the message of the failure. *)
Theorem failed_write_leaves_no_record
    (s : Sys) (ebookId bookTitle price : value) (autoId : string)
    (now : TimeValue) (w : PendingWrite) :
  let s1 := exec (handlePurchase G ebookId bookTitle price autoId now) s in
  pending (world s1) = pending (world s) ++ [w] ->
  (exists uid firestore,
     userId (ui s) = Some uid /\ uid <> "" /\ to_boolean ebookId = true
     /\ db (ui s) = Some firestore)
  /\ documents (world s1) = documents (world s)
  /\ books (ui s1) = books (ui s)
  /\ forall (s2 : Sys) (i : nat) (error : FirebaseError),
       pending (world s2) !! i = Some w ->
       exists s3, settleWrite i (Some error) s2 = Some s3
         /\ documents (world s3) = documents (world s2)
         /\ books (ui s3) = books (ui s2)
         /\ pending (world s3) = delete i (pending (world s2))
         /\ modal (ui s3)
            = mkModal true ("Purchase failed: " +:+ error_message error) false
         /\ includes (error_message error) (message (modal (ui s3))) = true.
Proof.
  cbv zeta. intros Hw.
  destruct (handlePurchase_cases G s ebookId bookTitle price autoId now)
    as [[_ E]|[(_ & _ & E)|[(_ & _ & _ & E)
       |(uid & firestore & Hu & Hne & He & Hdb & E)]]];
    rewrite E in Hw |- *; try (by apply snoc_neq in Hw).
  split; [by exists uid, firestore|].
  split; [reflexivity|]. split; [reflexivity|].
  intros s2 i error Hi.
  destruct (settleWrite_rejected _ _ _ error Hi)
    as (s3 & Hs3 & Hd & Hp & Hm & Hb & _).
  exists s3. rewrite Hm. repeat split; try done.
  cbn [message]. apply includes_app_r, includes_refl.
Qed.

(** C6. With an identity present (the [userId] that the auth service
    reported, a non-empty string), the checks come in order.  An [entryId]
    that is absent or empty raises the non-success notification
    [Ebook ID is missing.] and nothing else happens, whatever the storage
    handle is.  A non-empty [entryId] (any value that passes the handler's
    test [!ebookId]) with no storage handle raises the non-success
    notification that starts with [Database connection failed] and nothing
    else happens.  In both cases no write is attempted: the world outside
    the component is untouched. *)
Theorem validation_order
    (s : Sys) (uid : string) (ebookId bookTitle price : value)
    (autoId : string) (now : TimeValue) :
  userId (ui s) = Some uid ->
  uid <> "" ->
  let s1 := exec (handlePurchase G ebookId bookTitle price autoId now) s in
  (ebookId = VUndef \/ ebookId = VNull \/ ebookId = VStr "" ->
   modal (ui s1) = mkModal true "Ebook ID is missing." false
   /\ startsWith "Ebook ID is missing" (message (modal (ui s1))) = true
   /\ world s1 = world s)
  /\ (to_boolean ebookId = true -> db (ui s) = None ->
        modal (ui s1)
        = mkModal true "Database connection failed. Cannot process purchase." false
        /\ startsWith "Database connection failed" (message (modal (ui s1))) = true
        /\ world s1 = world s).
Proof.
  intros Hu Hne. cbv zeta.
  assert (to_boolean (userId (ui s)) = true) as Ht
    by (apply userId_truthy; eauto).
  split.
  - intros He. rewrite handlePurchase_no_ebookId;
      [done | done | by destruct He as [->|[->| ->]]].
  - intros He Hdb. by rewrite handlePurchase_no_db.
Qed.

(** C10. The title and the price are not validated or normalised: whatever
    values a purchase that reaches the write was called with are the
    [bookTitle] and [price] of the record it hands over, and that record,
    unchanged, is what a successful write persists. *)
Theorem purchase_stores_arguments_verbatim
    (s : Sys) (ebookId bookTitle price : value) (autoId : string)
    (now : TimeValue) (w : PendingWrite) :
  let s1 := exec (handlePurchase G ebookId bookTitle price autoId now) s in
  pending (world s1) = pending (world s) ++ [w] ->
  write_data w !! "bookTitle" = Some bookTitle
  /\ write_data w !! "price" = Some price
  /\ forall (s2 : Sys) (i : nat),
       pending (world s2) !! i = Some w ->
       exists s3 data,
         settleWrite i None s2 = Some s3
         /\ documents (world s3) = documents (world s2) ++ [(write_ref w, data)]
         /\ data !! "bookTitle" = Some bookTitle
         /\ data !! "price" = Some price.
Proof.
  cbv zeta. intros Hw.
  destruct (handlePurchase_cases G s ebookId bookTitle price autoId now)
    as [[_ E]|[(_ & _ & E)|[(_ & _ & _ & E)
       |(uid & firestore & Hu & Hne & He & Hdb & E)]]];
    rewrite E in Hw; try (by apply snoc_neq in Hw).
  apply app_inv_head in Hw. injection Hw as <-. cbn [write_data write_ref].
  assert (forall (a b c d e : value),
            ({[ "ebookId" := a; "bookTitle" := b; "price" := c;
                "purchaseDate" := d; "userId" := e ]} : obj) !! "bookTitle" = Some b
            /\ ({[ "ebookId" := a; "bookTitle" := b; "price" := c;
                   "purchaseDate" := d; "userId" := e ]} : obj) !! "price" = Some c)
    as Hlook by (intros; split; by simplify_map_eq).
  split; [apply Hlook|]. split; [apply Hlook|].
  intros s2 i Hi.
  destruct (settleWrite_resolved _ _ _ Hi) as (s3 & Hs3 & Hd & _).
  exists s3. eexists. split; [done|]. split; [exact Hd|].
  cbn [write_data]. split; apply Hlook.
Qed.

End PurchaseClaims.

(** ** Steps of the page *)

Section Steps.

Context (G : Globals).

Ltac unfold_handlers :=
  unfold exec, authStateChanged, attemptSignIn_catch, onSnapshot_next,
    onSnapshot_error, closeModal, runTimer, handlePurchase_then,
    handlePurchase_catch, initEffect, attemptSignIn, advance, persist,
    setDoc, setPending, navigate, setTimeout, setTimers, setSignIn,
    onAuthStateChanged, console_error, setModal, setModalWith, setLoading,
    setIsAuthReady, setUserId, setDb, setAuth, setBooks, modifyWorld,
    modifyState, getState, mbind, M_bind, mret, M_ret in *.

(** What the first effect leaves behind. *)
Lemma mount_spec (s : Sys) :
  mount G = Some s ->
  books (ui s) = initialBooks /\ userId (ui s) = None
  /\ modal (ui s) = mkModal false "" false
  /\ pending (world s) = [] /\ documents (world s) = []
  /\ timers (world s) = [] /\ navigations (world s) = []
  /\ (isAuthReady (ui s) = true -> loading (ui s) = false).
Proof.
  unfold mount. intros H.
  destruct (firebaseConfig G) as [config|]; cbn in H; [|done].
  destruct (Object_keys config) as [keys|]; cbn in H; [|done].
  injection H as <-. unfold_handlers.
  destruct (length keys =? 0)%nat; [by repeat split|].
  destruct (to_boolean (initialAuthToken G)); by repeat split.
Qed.

(** A step that is taken runs the handler of its event, and the event was
    enabled. *)
Lemma step_inv (ev : Event) (s s' : Sys) :
  step G ev s = Some s' ->
  match ev with
  | AuthStateChanged user =>
      auth_listeners (world s) <> [] /\ s' = exec (authStateChanged user) s
  | SignInRejected error =>
      is_Some (sign_in (world s)) /\ s' = exec (attemptSignIn_catch error) s
  | Snapshot docs =>
      subscribed (ui s) = true /\ s' = exec (onSnapshot_next docs) s
  | SnapshotError error =>
      subscribed (ui s) = true /\ s' = exec (onSnapshot_error error) s
  | BuyNow i autoId now =>
      loading (ui s) = false
      /\ exists book,
           books (ui s) !! i = Some book
           /\ s' = exec (handlePurchase G (get_prop book "id")
                           (get_prop book "title") (get_prop book "price")
                           autoId now) s
  | CloseModal =>
      loading (ui s) = false /\ visible (modal (ui s)) = true
      /\ s' = exec closeModal s
  | Tick dt => 0 <= dt /\ s' = exec (advance dt) s
  | TimerFired i =>
      exists t,
        timers (world s) !! i = Some t /\ due t <= clock (world s)
        /\ s' = exec (setTimers (delete i);; runTimer (callback t)) s
  | WriteResolved i =>
      exists w,
        pending (world s) !! i = Some w
        /\ s' = exec (setPending (delete i);;
                      persist (write_ref w) (write_data w);;
                      handlePurchase_then (write_bookTitle w)) s
  | WriteRejected i error =>
      exists w,
        pending (world s) !! i = Some w
        /\ s' = exec (setPending (delete i);; handlePurchase_catch error) s
  end.
Proof.
  intros H. destruct ev; cbn [step] in H.
  - destruct (auth_listeners (world s)); [done|]. by injection H as <-.
  - destruct (sign_in (world s)); [|done]. by injection H as <-.
  - destruct (subscribed (ui s)); [|done]. by injection H as <-.
  - destruct (subscribed (ui s)); [|done]. by injection H as <-.
  - destruct (loading (ui s)); [done|].
    destruct (books (ui s) !! i) as [book|]; [|done].
    cbn in H. injection H as <-. eauto.
  - destruct (loading (ui s)), (visible (modal (ui s))); try done.
    by injection H as <-.
  - destruct (Z.leb_spec 0 dt); [|done]. by injection H as <-.
  - unfold fireTimer in H.
    destruct (timers (world s) !! i) as [t|]; [|done]. cbn in H.
    destruct (Z.leb_spec (due t) (clock (world s))); [|done].
    injection H as <-. eauto.
  - unfold settleWrite in H.
    destruct (pending (world s) !! i) as [w|]; [|done].
    cbn in H. injection H as <-. eauto.
  - unfold settleWrite in H.
    destruct (pending (world s) !! i) as [w|]; [|done].
    cbn in H. injection H as <-. eauto.
Qed.

(** Inverts a step, and splits a purchase into its four branches. *)
Ltac step_cases H :=
  apply step_inv in H;
  match type of H with
  | match ?ev with _ => _ end => destruct ev
  end;
  repeat match type of H with
         | _ /\ _ => let H' := fresh H in destruct H as [H' H]
         | exists _, _ => let x := fresh "x" in destruct H as [x H]
         end;
  try match type of H with
      | _ = exec (handlePurchase ?G ?a ?b ?c ?d ?e) ?s =>
          let E := fresh "E" in
          destruct (handlePurchase_cases G s a b c d e)
            as [[? E]|[(? & ? & E)|[(? & ? & ? & E)
               |(? & ? & ? & ? & ? & ? & E)]]];
          rewrite E in H; clear E
      end;
  subst.

(** The three ways a step can touch the writes: not at all, by handing one
    over for the current identity, or by settling a pending one. *)
Lemma step_writes (ev : Event) (s s' : Sys) :
  step G ev s = Some s' ->
  (pending (world s') = pending (world s)
   /\ documents (world s') = documents (world s))
  \/ (exists w uid,
        pending (world s') = pending (world s) ++ [w]
        /\ documents (world s') = documents (world s)
        /\ userId (ui s) = Some uid
        /\ owned_by G uid (write_ref w) (write_data w))
  \/ (exists i w,
        pending (world s) !! i = Some w
        /\ pending (world s') = delete i (pending (world s))
        /\ (documents (world s')
            = documents (world s) ++ [(write_ref w, write_data w)]
            \/ documents (world s') = documents (world s))).
Proof.
  intros H. step_cases H;
    try (left; split; reflexivity);
    try (left; by destruct user);
    try (left; by destruct (callback x)).
  - right; left. eexists _, _. by repeat split.
  - right; right. eexists _, _. split; [done|]. split; [reflexivity|by left].
  - right; right. eexists _, _. split; [done|]. split; [reflexivity|by right].
Qed.

(** Only the two subscription callbacks touch the catalogue. *)
Lemma step_books (ev : Event) (s s' : Sys) :
  step G ev s = Some s' ->
  match ev with
  | Snapshot docs => books (ui s') = map fetchedBook docs
  | SnapshotError _ => books (ui s') = initialBooks
  | _ => books (ui s') = books (ui s)
  end.
Proof.
  intros H. step_cases H; try reflexivity;
    [by destruct user | by destruct (callback x)].
Qed.

(** Readiness and the end of loading come together. *)
Lemma step_ready (ev : Event) (s s' : Sys) :
  step G ev s = Some s' ->
  (isAuthReady (ui s) = true -> loading (ui s) = false) ->
  isAuthReady (ui s') = true -> loading (ui s') = false.
Proof.
  intros H. step_cases H; try done;
    [by destruct user | by destruct (callback x)].
Qed.

Lemma reaches_ready (evs : list Event) (s : Sys) :
  reaches G evs s -> isAuthReady (ui s) = true -> loading (ui s) = false.
Proof.
  induction 1 as [s Hm|evs s ev s' _ IH Hstep].
  - by apply mount_spec in Hm as (_ & _ & _ & _ & _ & _ & _ & Hr).
  - by apply (step_ready _ _ _ Hstep).
Qed.

(** Every write, pending or persisted, was made for an identity. *)
Lemma reaches_owned (evs : list Event) (s : Sys) :
  reaches G evs s ->
  Forall (fun w => exists uid, owned_by G uid (write_ref w) (write_data w))
         (pending (world s))
  /\ Forall (fun d => exists uid, owned_by G uid d.1 d.2) (documents (world s)).
Proof.
  induction 1 as [s Hm|evs s ev s' _ [IHp IHd] Hstep].
  - apply mount_spec in Hm as (_ & _ & _ & -> & -> & _). by split.
  - destruct (step_writes _ _ _ Hstep)
      as [[-> ->]|[(w & uid & -> & -> & _ & Hw)|(i & w & Hi & -> & Hdocs)]].
    + done.
    + split; [|done]. apply Forall_app. split; [done|].
      constructor; [by exists uid|constructor].
    + split.
      * by apply Forall_delete.
      * destruct Hdocs as [-> | ->]; [|done].
        apply Forall_app. split; [done|]. constructor; [|constructor].
        exact (Forall_lookup_1 _ _ _ _ IHp Hi).
Qed.

(** C3. No record is written without an identity.  In every state the page
    can reach, each persisted record names a non-empty [userId] and lies
    in that identity's purchases collection; and whenever a step hands a
    record to the store, the state it was taken from has a [userId], which
    is not empty and is the [userId] of that record. *)
Theorem no_record_without_identity (evs : list Event) (s : Sys) :
  reaches G evs s ->
  (forall r data, (r, data) ∈ documents (world s) ->
     exists uid, owned_by G uid r data)
  /\ (forall ev s' w,
        step G ev s = Some s' ->
        pending (world s') = pending (world s) ++ [w] ->
        exists uid, userId (ui s) = Some uid /\ uid <> ""
                    /\ write_data w !! "userId" = Some (VStr uid)
                    /\ owned_by G uid (write_ref w) (write_data w))
  /\ (forall ev s',
        step G ev s = Some s' -> userId (ui s) = None ->
        length (pending (world s')) <= length (pending (world s)))%nat.
Proof.
  intros Hr. split; [|split].
  - intros r data Hin.
    destruct (reaches_owned _ _ Hr) as [_ Hd].
    eapply Forall_forall in Hd; [|exact Hin]. done.
  - intros ev s' w Hstep Hp.
    destruct (step_writes _ _ _ Hstep)
      as [[Hp' _]|[(w' & uid & Hp' & _ & Hu & Hw)|(i & w' & Hi & Hp' & _)]].
    + rewrite Hp' in Hp. apply (f_equal length) in Hp.
      rewrite length_app in Hp. cbn in Hp. lia.
    + rewrite Hp' in Hp. apply app_inv_head in Hp. injection Hp as ->.
      exists uid. destruct Hw as (? & ? & ?). by repeat split.
    + rewrite Hp' in Hp. apply (f_equal length) in Hp.
      rewrite length_app, length_delete in Hp by eauto. cbn in Hp. lia.
  - intros ev s' Hstep Hu.
    destruct (step_writes _ _ _ Hstep)
      as [[-> _]|[(w' & uid & _ & _ & Hu' & _)|(i & w' & Hi & -> & _)]].
    + done.
    + congruence.
    + rewrite length_delete by eauto. lia.
Qed.

(** C9 (amended). Every dismissal of a visible notification leaves it
    invisible, and only the closing controls and the timed dismissal dismiss
    one.  The closing controls reset the whole slot: not visible, empty
    message, not a success.  The timed dismissal only clears [visible]: the
    message and the success flag stay as they were.  After any other step
    a notification is still visible. *)
Theorem dismissal_hides_notification (ev : Event) (s s' : Sys) :
  step G ev s = Some s' ->
  visible (modal (ui s)) = true ->
  match ev with
  | CloseModal => modal (ui s') = mkModal false "" false
  | TimerFired _ =>
      modal (ui s')
      = mkModal false (message (modal (ui s))) (isSuccess (modal (ui s)))
  | _ => visible (modal (ui s')) = true
  end.
Proof.
  intros H Hv. step_cases H; try done;
    [by destruct user | by destruct (callback x)].
Qed.

(** ** The catalogue *)

Lemma fetchedBook_fields (d : QueryDocumentSnapshot) (k : string) (v : value) :
  doc_data d !! k = Some v -> fetchedBook d !! k = Some v.
Proof.
  intros H. unfold fetchedBook, spread. by apply lookup_union_Some_l.
Qed.

Lemma fetchedBook_id (d : QueryDocumentSnapshot) :
  get_prop (fetchedBook d) "id"
  = match doc_data d !! "id" with
    | Some v => v
    | None => VStr (doc_id d)
    end.
Proof.
  unfold get_prop, fetchedBook, spread. rewrite lookup_union.
  destruct (doc_data d !! "id"); by simplify_map_eq.
Qed.

Lemma fetchedBook_no_id_field (d : QueryDocumentSnapshot) :
  doc_data d !! "id" = None ->
  fetchedBook d = <["id" := VStr (doc_id d)]> (doc_data d).
Proof.
  intros H. unfold fetchedBook, spread.
  rewrite insert_union_singleton_l. apply map_union_comm.
  by apply map_disjoint_singleton_r.
Qed.

(** C4 (amended). After a snapshot the catalogue is the list of the
    snapshot's documents, in the order delivered and whatever it was
    before, each turned into an object with all the fields of the document
    and an [id]: the field named [id] if the document has one, the document
    id otherwise.  When no document has a field named [id], every entry
    carries its document id, and when the document ids are distinct as
    well, no two entries have the same [id]. *)
Theorem snapshot_replaces_catalogue
    (s : Sys) (docs : list QueryDocumentSnapshot) :
  let s1 := exec (onSnapshot_next docs) s in
  books (ui s1) = map fetchedBook docs
  /\ length (books (ui s1)) = length docs
  /\ (forall i d, docs !! i = Some d ->
        exists book, books (ui s1) !! i = Some book
          /\ (forall k v, doc_data d !! k = Some v -> book !! k = Some v)
          /\ (forall k, k <> "id" -> book !! k = doc_data d !! k)
          /\ get_prop book "id"
             = match doc_data d !! "id" with
               | Some v => v
               | None => VStr (doc_id d)
               end)
  /\ ((forall d, d ∈ docs -> doc_data d !! "id" = None) ->
      books (ui s1)
      = map (fun d => <["id" := VStr (doc_id d)]> (doc_data d)) docs
      /\ map (fun book => get_prop book "id") (books (ui s1))
         = map (fun d => VStr (doc_id d)) docs
      /\ (NoDup (map doc_id docs) ->
          NoDup (map (fun book => get_prop book "id") (books (ui s1))))).
Proof.
  cbv zeta. change (books (ui (exec (onSnapshot_next docs) s)))
    with (map fetchedBook docs).
  split; [done|]. split; [by rewrite length_map|]. split.
  - intros i d Hi. exists (fetchedBook d).
    split; [by rewrite list_lookup_fmap, Hi|].
    split; [apply fetchedBook_fields|]. split; [|apply fetchedBook_id].
    intros k Hk. unfold fetchedBook, spread. rewrite lookup_union.
    rewrite lookup_singleton_ne by done. by destruct (doc_data d !! k).
  - intros Hno.
    assert (map (fun book => get_prop book "id") (map fetchedBook docs)
            = map (fun d => VStr (doc_id d)) docs) as Hids.
    { rewrite map_map. apply map_ext_in. intros d Hd%list_elem_of_In.
      by rewrite fetchedBook_id, Hno. }
    split; [|split; [done|]].
    + apply map_ext_in. intros d Hd%list_elem_of_In.
      by apply fetchedBook_no_id_field, Hno.
    + intros Hnd. rewrite Hids, <- (map_map doc_id VStr).
      assert (Inj (=) (=) VStr) by (by intros ?? [= ->]).
      exact (NoDup_fmap_2 VStr _ Hnd).
Qed.

(** C7. The default catalogue is not empty; it is the catalogue at mount
    and for as long as no snapshot has come; and whenever the subscription
    reports an error the catalogue is set to it, and the page, which is
    past loading by then, shows exactly its cards. *)
Theorem subscription_error_restores_default :
  initialBooks <> []
  /\ (forall s, mount G = Some s -> books (ui s) = initialBooks)
  /\ (forall evs s,
        reaches G evs s ->
        forallb (fun ev => negb (is_Snapshot ev)) evs = true ->
        books (ui s) = initialBooks)
  /\ (forall s error, books (ui (exec (onSnapshot_error error) s)) = initialBooks)
  /\ (forall evs s error s',
        reaches G evs s ->
        step G (SnapshotError error) s = Some s' ->
        books (ui s') = initialBooks
        /\ exists status overlay,
             render (ui s') = CatalogView status (map card_of initialBooks) overlay).
Proof.
  split; [done|]. split; [by intros s (Hb & _)%mount_spec|].
  split; [|split; [done|]].
  - induction 1 as [s Hm|evs s ev s' _ IH Hstep]; intros Hall.
    + by apply mount_spec in Hm as (Hb & _).
    + rewrite forallb_app in Hall. apply andb_true_iff in Hall as [Hevs Hev].
      apply step_books in Hstep.
      destruct ev; cbn in Hev; try done; try (rewrite Hstep; by apply IH).
  - intros evs s error s' Hr Hstep.
    assert (Hr' : reaches G (evs ++ [SnapshotError error]) s')
      by (by econstructor).
    pose proof (step_books _ _ _ Hstep) as Hb. cbn in Hb.
    split; [done|].
    cbn [step] in Hstep. destruct (subscribed (ui s)) eqn:Hsub; [|done].
    injection Hstep as <-.
    assert (isAuthReady (ui s) = true) as Hready.
    { unfold subscribed in Hsub. by destruct (isAuthReady (ui s)), (db (ui s)). }
    pose proof (reaches_ready _ _ Hr Hready) as Hl.
    unfold render. change (loading (ui (exec (onSnapshot_error error) s)))
      with (loading (ui s)). rewrite Hl. by eexists _, _.
Qed.

(** ** Start-up without a configuration *)

Lemma degraded_mount :
  is_undefined (__firebase_config G) = true
  \/ JSON_parse G (ToString (__firebase_config G)) = Some (VObj ∅) ->
  mount G
  = Some (exec (console_error "Firebase config is missing. Data persistence disabled." None;;
                setIsAuthReady true;; setLoading false)
               (mkSys initial_state initial_world)).
Proof.
  intros H. unfold mount.
  assert (firebaseConfig G = Some (VObj ∅)) as ->.
  { unfold firebaseConfig. destruct (is_undefined (__firebase_config G)); [done|].
    by destruct H. }
  cbn [mbind option_bind Object_keys]. by rewrite map_to_list_empty.
Qed.

(** C8. With the configuration absent, or present and an empty object, the
    page mounts ready and past loading, with no identity, no storage or
    auth handle, no sign-in attempted and no identity listener registered;
    it logs one line, raises no notification and shows the default
    catalogue.  From then on persistence is off: whatever happens, there
    is no identity, no handle, no write pending or persisted, and nothing
    more is logged. *)
Theorem degraded_mode :
  is_undefined (__firebase_config G) = true
  \/ JSON_parse G (ToString (__firebase_config G)) = Some (VObj ∅) ->
  exists s0,
    mount G = Some s0
    /\ isAuthReady (ui s0) = true /\ loading (ui s0) = false
    /\ userId (ui s0) = None /\ db (ui s0) = None /\ auth (ui s0) = None
    /\ sign_in (world s0) = None /\ auth_listeners (world s0) = []
    /\ console (world s0)
       = [("Firebase config is missing. Data persistence disabled.", None)]
    /\ visible (modal (ui s0)) = false
    /\ render (ui s0)
       = CatalogView "Status: Not authenticated" (map card_of initialBooks) None
    /\ forall evs s,
         reaches G evs s ->
         userId (ui s) = None /\ db (ui s) = None /\ auth (ui s) = None
         /\ sign_in (world s) = None /\ auth_listeners (world s) = []
         /\ pending (world s) = [] /\ documents (world s) = []
         /\ console (world s) = console (world s0)
         /\ loading (ui s) = false.
Proof.
  intros Hcfg. apply degraded_mount in Hcfg. eexists. split; [exact Hcfg|].
  do 10 (split; [reflexivity|]).
  induction 1 as [s Hm|evs s ev s' _ IH Hstep].
  - rewrite Hcfg in Hm. injection Hm as <-. by repeat split.
  - destruct IH as (Hu & Hdb & Ha & Hsi & Hal & Hp & Hd & Hc & Hl).
    step_cases Hstep;
      solve [ by repeat split
            | congruence
            | match goal with
              | H : is_Some (sign_in _) |- _ => rewrite Hsi in H; by destruct H
              | H : subscribed _ = true |- _ =>
                  unfold subscribed in H; by rewrite Hdb in H
              | H : pending _ !! _ = Some _ |- _ => by rewrite Hp in H
              | H : to_boolean (userId _) = true |- _ => by rewrite Hu in H
              | |- context [callback ?t] => destruct (callback t); by repeat split
              end ].
Qed.

End Steps.

(** ** Traces *)

Section Traces.

Context (G : Globals).

Lemma run_reaches (evs pre : list Event) (s s' : Sys) :
  reaches G pre s -> run G evs s = Some s' -> reaches G (pre ++ evs) s'.
Proof.
  revert pre s. induction evs as [|ev evs IH]; intros pre s Hr Hrun.
  - cbn in Hrun. injection Hrun as <-. by rewrite app_nil_r.
  - cbn [run] in Hrun. destruct (step G ev s) as [s1|] eqn:Hstep; [|done].
    cbn in Hrun. rewrite (cons_middle ev pre evs), app_assoc.
    eapply IH; [|done]. by econstructor.
Qed.

Lemma trace_reaches (evs : list Event) (s : Sys) :
  trace G evs = Some s -> reaches G evs s.
Proof.
  unfold trace. intros H. destruct (mount G) as [s0|] eqn:Hm; [|done].
  cbn in H. apply (run_reaches evs [] s0 s); [by constructor|done].
Qed.

End Traces.

(** ** Worked examples *)

Import Samples.

(** C1, instance: the purchase of the MERN STACK guide by [u1]. *)
Lemma purchase_creates_record_example :
  let s := ready (Some "u1") in
  let s1 := exec (handlePurchase canvas (VStr "mern_stack_guide")
                    (VStr "MERN STACK") (VNum 999) "auto1" an_instant) s in
  (userId (ui s) = Some "u1" /\ "u1" <> ""
   /\ to_boolean (VStr "mern_stack_guide") = true
   /\ db (ui s) = Some a_firestore)
  /\ length (pending (world s1)) = 1%nat
  /\ documents (world s1) = [].
Proof.
  cbv zeta.
  assert (H1 : "u1" <> "") by discriminate.
  split; [by repeat split|].
  destruct (purchase_creates_record canvas (ready (Some "u1")) "u1"
              (VStr "mern_stack_guide") (VStr "MERN STACK") (VNum 999)
              a_firestore "auto1" an_instant eq_refl H1 eq_refl eq_refl)
    as (Hp & Hd & _).
  split; [by rewrite Hp|exact Hd].
Defined.

(** C2, instance: a purchase on a page with no identity. *)
Lemma purchase_without_identity_example :
  let s := ready None in
  let s1 := exec (handlePurchase canvas (VStr "mern_stack_guide")
                    (VStr "MERN STACK") (VNum 999) "auto1" an_instant) s in
  userId (ui s) = None
  /\ pending (world s1) = [] /\ documents (world s1) = []
  /\ timers (world s1) = [mkTimer 1500 RedirectToRegister].
Proof.
  cbv zeta. split; [reflexivity|].
  destruct (purchase_without_identity canvas (ready None)
              (VStr "mern_stack_guide") (VStr "MERN STACK") (VNum 999)
              "auto1" an_instant eq_refl) as (Hp & Hd & _ & Ht & _).
  split; [exact Hp|]. split; [exact Hd|exact Ht].
Defined.

(** C3, instance: [u1] signs in, buys, and the write goes through. *)
Lemma no_record_without_identity_example :
  exists s,
    trace canvas [AuthStateChanged (Some (mkUser "u1"));
                  BuyNow 0 "auto1" an_instant; WriteResolved 0] = Some s
    /\ length (documents (world s)) = 1%nat
    /\ forall r data, (r, data) ∈ documents (world s) ->
         exists uid, owned_by canvas uid r data.
Proof.
  eexists. split; [reflexivity|]. split; [reflexivity|].
  eapply (no_record_without_identity canvas
            [AuthStateChanged (Some (mkUser "u1"));
             BuyNow 0 "auto1" an_instant; WriteResolved 0]).
  apply trace_reaches. reflexivity.
Defined.

(** C4, where the claim fails: two documents with distinct ids, the second
    with a field named [id]; both entries end up with the [id] of the
    first, and the second does not carry its document id. *)
Lemma id_field_overrides_document_id :
  let docs := [mkDoc "a" ∅; mkDoc "b" {[ "id" := VStr "a" ]}] in
  let s1 := exec (onSnapshot_next docs) (ready None) in
  NoDup (map doc_id docs)
  /\ map (fun book => get_prop book "id") (books (ui s1)) = [VStr "a"; VStr "a"]
  /\ ~ NoDup (map (fun book => get_prop book "id") (books (ui s1))).
Proof.
  cbv zeta. split; [|split].
  - apply NoDup_cons. split; [by intros ?%list_elem_of_singleton|].
    apply NoDup_singleton.
  - reflexivity.
  - change (map (fun book => get_prop book "id")
              (books (ui (exec (onSnapshot_next
                 [mkDoc "a" ∅; mkDoc "b" {[ "id" := VStr "a" ]}]) (ready None)))))
      with [VStr "a"; VStr "a"].
    intros Hnd. apply NoDup_cons in Hnd as [Hnotin _].
    apply Hnotin. by apply list_elem_of_singleton.
Qed.

(** C4, instance: a snapshot of two documents without an [id] field. *)
Lemma snapshot_replaces_catalogue_example :
  let docs := [mkDoc "b1" {[ "title" := VStr "One"; "price" := VNum 100 ]};
               mkDoc "b2" {[ "title" := VStr "Two"; "price" := VNum 250 ]}] in
  let s1 := exec (onSnapshot_next docs) (ready None) in
  map (fun book => get_prop book "id") (books (ui s1)) = [VStr "b1"; VStr "b2"]
  /\ NoDup (map (fun book => get_prop book "id") (books (ui s1))).
Proof.
  cbv zeta.
  destruct (snapshot_replaces_catalogue (ready None)
              [mkDoc "b1" {[ "title" := VStr "One"; "price" := VNum 100 ]};
               mkDoc "b2" {[ "title" := VStr "Two"; "price" := VNum 250 ]}])
    as (_ & _ & _ & Hno).
  destruct Hno as (_ & Hids & Hnd).
  - intros d Hd. apply elem_of_cons in Hd as [->|Hd]; [reflexivity|].
    apply list_elem_of_singleton in Hd as ->. reflexivity.
  - split; [exact Hids|]. apply Hnd.
    apply NoDup_cons. split; [by intros ?%list_elem_of_singleton|].
    apply NoDup_singleton.
Defined.

(** C5, instance: the write of [u1]'s purchase is refused. *)
Lemma failed_write_leaves_no_record_example :
  let s := ready (Some "u1") in
  let s1 := exec (handlePurchase canvas (VStr "mern_stack_guide")
                    (VStr "MERN STACK") (VNum 999) "auto1" an_instant) s in
  exists s3,
    settleWrite 0 (Some (mkError "permission-denied")) s1 = Some s3
    /\ documents (world s3) = []
    /\ modal (ui s3) = mkModal true "Purchase failed: permission-denied" false.
Proof.
  cbv zeta.
  pose (w := mkPendingWrite
               (doc (collection a_firestore (purchasesPath canvas "u1")) "auto1")
               {[ "ebookId" := VStr "mern_stack_guide";
                  "bookTitle" := VStr "MERN STACK";
                  "price" := VNum 999;
                  "purchaseDate" := VStr (toISOString an_instant);
                  "userId" := VStr "u1" ]}
               (VStr "MERN STACK")).
  destruct (failed_write_leaves_no_record canvas (ready (Some "u1"))
              (VStr "mern_stack_guide") (VStr "MERN STACK") (VNum 999)
              "auto1" an_instant w eq_refl) as (_ & _ & _ & Hfail).
  destruct (Hfail (exec (handlePurchase canvas (VStr "mern_stack_guide")
                     (VStr "MERN STACK") (VNum 999) "auto1" an_instant)
                     (ready (Some "u1")))
                  0%nat (mkError "permission-denied") eq_refl)
    as (s3 & Hs3 & Hd & _ & _ & Hm & _).
  exists s3. split; [exact Hs3|]. split; [exact Hd|exact Hm].
Defined.

(** C6, instance: [u1] buys on a page without a storage handle, first an
    entry without an id, then the MERN STACK guide.  The first purchase
    stops at the check of the id, the second at the check of the handle. *)
Lemma validation_order_example :
  let s := mkSys (mkState initialBooks None None (Some "u1") true false
                    (mkModal false "" false)) initial_world in
  let s1 := exec (handlePurchase canvas (VStr "") (VStr "MERN STACK")
                    (VNum 999) "auto1" an_instant) s in
  let s2 := exec (handlePurchase canvas (VStr "mern_stack_guide")
                    (VStr "MERN STACK") (VNum 999) "auto1" an_instant) s in
  (userId (ui s) = Some "u1" /\ "u1" <> "" /\ db (ui s) = None
   /\ to_boolean (VStr "mern_stack_guide") = true)
  /\ (modal (ui s1) = mkModal true "Ebook ID is missing." false
      /\ world s1 = world s)
  /\ (modal (ui s2)
      = mkModal true "Database connection failed. Cannot process purchase." false
      /\ world s2 = world s).
Proof.
  cbv zeta.
  assert (H1 : "u1" <> "") by discriminate.
  split; [by repeat split|].
  split.
  - destruct (validation_order canvas
                (mkSys (mkState initialBooks None None (Some "u1") true false
                          (mkModal false "" false)) initial_world)
                "u1" (VStr "") (VStr "MERN STACK") (VNum 999) "auto1"
                an_instant eq_refl H1) as [Hmissing _].
    destruct (Hmissing (or_intror (or_intror eq_refl))) as (Hm & _ & Hw).
    split; [exact Hm|exact Hw].
  - destruct (validation_order canvas
                (mkSys (mkState initialBooks None None (Some "u1") true false
                          (mkModal false "" false)) initial_world)
                "u1" (VStr "mern_stack_guide") (VStr "MERN STACK") (VNum 999)
                "auto1" an_instant eq_refl H1) as [_ Hnodb].
    destruct (Hnodb eq_refl eq_refl) as (Hm & _ & Hw).
    split; [exact Hm|exact Hw].
Defined.

(** C7, instance: the subscription fails right after the page got ready. *)
Lemma subscription_error_restores_default_example :
  exists s s',
    trace canvas [AuthStateChanged None;
                  Snapshot [mkDoc "b1" {[ "title" := VStr "One" ]}]] = Some s
    /\ step canvas (SnapshotError (mkError "unavailable")) s = Some s'
    /\ books (ui s) <> initialBooks
    /\ books (ui s') = initialBooks.
Proof.
  eexists _, _. split; [reflexivity|]. split; [reflexivity|].
  split; [discriminate|].
  destruct (subscription_error_restores_default canvas)
    as (_ & _ & _ & _ & Herr).
  eapply (Herr [AuthStateChanged None;
                Snapshot [mkDoc "b1" {[ "title" := VStr "One" ]}]]).
  - apply trace_reaches. reflexivity.
  - reflexivity.
Defined.

(** C8, instance: the page outside the canvas, no global defined. *)
Lemma degraded_mode_example :
  is_undefined (__firebase_config standalone) = true
  /\ exists s0, mount standalone = Some s0
       /\ isAuthReady (ui s0) = true /\ loading (ui s0) = false
       /\ userId (ui s0) = None /\ db (ui s0) = None.
Proof.
  split; [reflexivity|].
  destruct (degraded_mode standalone (or_introl eq_refl))
    as (s0 & Hm & Hr & Hl & Hu & Hdb & _).
  exists s0. split; [exact Hm|]. split; [exact Hr|]. split; [exact Hl|].
  split; [exact Hu|exact Hdb].
Defined.

(** C9, where the claim fails: the notification of the not-logged-in
    purchase is visible, and after its timed dismissal the message is still
    in the slot. *)
Lemma timed_dismissal_keeps_message :
  (fun s => modal (ui s))
    <$> trace canvas [AuthStateChanged None; BuyNow 0 "auto1" an_instant;
                      Tick 1500]
  = Some (mkModal true
            "You must be logged in to make a purchase. Redirecting you to register..."
            false)
  /\ (fun s => modal (ui s))
       <$> trace canvas [AuthStateChanged None; BuyNow 0 "auto1" an_instant;
                         Tick 1500; TimerFired 0]
     = Some (mkModal false
               "You must be logged in to make a purchase. Redirecting you to register..."
               false).
Proof. split; reflexivity. Qed.

(** C9, instance: the user closes the notice of a purchase made without
    an identity. *)
Lemma dismissal_hides_notification_example :
  let s := exec (handlePurchase canvas (VStr "mern_stack_guide")
                   (VStr "MERN STACK") (VNum 999) "auto1" an_instant)
                (ready None) in
  (step canvas CloseModal s = Some (exec closeModal s)
   /\ visible (modal (ui s)) = true)
  /\ modal (ui (exec closeModal s)) = mkModal false "" false.
Proof.
  cbv zeta. split; [by split|].
  apply (dismissal_hides_notification canvas CloseModal
           (exec (handlePurchase canvas (VStr "mern_stack_guide")
                    (VStr "MERN STACK") (VNum 999) "auto1" an_instant)
                 (ready None)));
    reflexivity.
Defined.

(** C10, instance: an empty title and a negative price are stored as
    they are. *)
Lemma purchase_stores_arguments_verbatim_example :
  let s := ready (Some "u1") in
  let s1 := exec (handlePurchase canvas (VStr "mern_stack_guide") (VStr "")
                    (VNum (-5)) "auto1" an_instant) s in
  exists s3 r data,
    settleWrite 0 None s1 = Some s3
    /\ documents (world s3) = [(r, data)]
    /\ data !! "bookTitle" = Some (VStr "")
    /\ data !! "price" = Some (VNum (-5)).
Proof.
  cbv zeta.
  pose (w := mkPendingWrite
               (doc (collection a_firestore (purchasesPath canvas "u1")) "auto1")
               {[ "ebookId" := VStr "mern_stack_guide";
                  "bookTitle" := VStr "";
                  "price" := VNum (-5);
                  "purchaseDate" := VStr (toISOString an_instant);
                  "userId" := VStr "u1" ]}
               (VStr "")).
  destruct (purchase_stores_arguments_verbatim canvas (ready (Some "u1"))
              (VStr "mern_stack_guide") (VStr "") (VNum (-5))
              "auto1" an_instant w eq_refl) as (_ & _ & Hok).
  destruct (Hok (exec (handlePurchase canvas (VStr "mern_stack_guide")
                   (VStr "") (VNum (-5)) "auto1" an_instant)
                   (ready (Some "u1")))
                0%nat eq_refl)
    as (s3 & data & Hs3 & Hd & Ht & Hp).
  exists s3, (write_ref w), data. split; [exact Hs3|].
  split; [exact Hd|]. split; [exact Ht|exact Hp].
Defined.

(** * Further properties of the page *)

(** Inverts a step, and splits a purchase into its four branches. *)
Ltac invert_step H :=
  apply step_inv in H;
  match type of H with
  | match ?ev with _ => _ end => destruct ev
  end;
  repeat match type of H with
         | _ /\ _ => let H' := fresh H in destruct H as [H' H]
         | exists _, _ => let x := fresh "x" in destruct H as [x H]
         end;
  try match type of H with
      | _ = exec (handlePurchase ?G ?a ?b ?c ?d ?e) ?s =>
          let E := fresh "E" in
          destruct (handlePurchase_cases G s a b c d e)
            as [[? E]|[(? & ? & E)|[(? & ? & ? & E)
               |(? & ? & ? & ? & ? & ? & E)]]];
          rewrite E in H; clear E
      end;
  subst.

(** Runs the handlers in the goal down to the fields they set. *)
Ltac run_handlers :=
  cbv [exec authStateChanged attemptSignIn_catch onSnapshot_next
       onSnapshot_error closeModal runTimer handlePurchase_then
       handlePurchase_catch advance persist setDoc setPending navigate
       setTimeout setTimers setSignIn onAuthStateChanged console_error
       setModal setModalWith setLoading setIsAuthReady setUserId setDb
       setAuth setBooks modifyWorld modifyState getState mbind M_bind mret
       M_ret snd fst];
  cbn [ui world books auth db userId isAuthReady loading modal visible
       message isSuccess clock console auth_listeners sign_in timers
       navigations pending documents].

Ltac run_handlers_in H :=
  cbv [exec authStateChanged attemptSignIn_catch onSnapshot_next
       onSnapshot_error closeModal runTimer handlePurchase_then
       handlePurchase_catch advance persist setDoc setPending navigate
       setTimeout setTimers setSignIn onAuthStateChanged console_error
       setModal setModalWith setLoading setIsAuthReady setUserId setDb
       setAuth setBooks modifyWorld modifyState getState mbind M_bind mret
       M_ret snd fst] in H;
  cbn [ui world books auth db userId isAuthReady loading modal visible
       message isSuccess clock console auth_listeners sign_in timers
       navigations pending documents] in H.

(** Inverts a step down to the fields the handler of the event sets. *)
Ltac step_fields H :=
  invert_step H;
  try match goal with u : option User |- _ => destruct u end;
  try match goal with t : Timer |- _ => destruct t as [? []] end;
  run_handlers.

(** ** Start-up *)

Section StartUp.

Context (G : Globals).

Lemma mount_inv (s0 : Sys) :
  mount G = Some s0 ->
  exists config keys,
    firebaseConfig G = Some config /\ Object_keys config = Some keys
    /\ s0 = exec (initEffect G config keys) (mkSys initial_state initial_world).
Proof.
  unfold mount. intros H.
  destruct (firebaseConfig G) as [config|]; cbn in H; [|done].
  destruct (Object_keys config) as [keys|] eqn:Hk; cbn in H; [|done].
  injection H as <-. by exists config, keys.
Qed.

(** The page mounts either without Firebase, ready at once, or with it,
    loading until the auth listener speaks. *)
Lemma mount_modes (s0 : Sys) :
  mount G = Some s0 ->
  (isAuthReady (ui s0) = true /\ loading (ui s0) = false /\ db (ui s0) = None
   /\ auth_listeners (world s0) = [] /\ sign_in (world s0) = None)
  \/ (isAuthReady (ui s0) = false /\ loading (ui s0) = true
      /\ is_Some (db (ui s0)) /\ is_Some (sign_in (world s0))
      /\ exists a, auth_listeners (world s0) = [a]).
Proof.
  intros (config & keys & _ & _ & ->)%mount_inv. unfold initEffect.
  destruct (length keys =? 0)%nat; [left; by repeat split|right].
  unfold attemptSignIn. destruct (to_boolean (initialAuthToken G));
    repeat split; by eauto.
Qed.

Lemma initEffect_with_keys (config : value) (k : string) (ks : list string) :
  let s0 := exec (initEffect G config (k :: ks))
                 (mkSys initial_state initial_world) in
  isAuthReady (ui s0) = false /\ is_Some (db (ui s0)).
Proof.
  cbv zeta. unfold initEffect. cbn [length Nat.eqb]. unfold attemptSignIn.
  destruct (to_boolean (initialAuthToken G)); by split.
Qed.

Lemma usable_options_keys (config : value) :
  usable_options config = true ->
  exists k ks, Object_keys config = Some (k :: ks).
Proof.
  destruct config as [| | | | | | |m]; try done. cbn [usable_options Object_keys].
  destruct (m !! "apiKey") as [v|] eqn:E; [|done]. intros _.
  destruct (map_to_list m) as [|kv l] eqn:Hl.
  - apply map_to_list_empty_iff in Hl. subst m. by rewrite lookup_empty in E.
  - by exists kv.1, (l.*1).
Qed.

(** X1. With a configuration the SDK makes handles from (an object with an
    API key and a project id) the page sets up Firebase once: the storage
    and auth handles of one app made from that configuration, one auth
    listener, one sign-in, with the supplied token when there is a truthy
    one and anonymous otherwise (an undefined, null or empty token is no
    token).  Nothing is logged or notified, there is no identity yet and the
    page shows the loading view. *)
Theorem normal_startup (config : value) :
  firebaseConfig G = Some config ->
  usable_options config = true ->
  let app := initializeApp config in
  exists s0,
    mount G = Some s0
    /\ db (ui s0) = Some (getFirestore app)
    /\ auth (ui s0) = Some (getAuth app)
    /\ auth_listeners (world s0) = [getAuth app]
    /\ sign_in (world s0)
       = Some (if to_boolean (initialAuthToken G)
               then signInWithCustomToken (getAuth app) (initialAuthToken G)
               else signInAnonymously (getAuth app))
    /\ (__initial_auth_token G = VUndef \/ __initial_auth_token G = VNull
        \/ __initial_auth_token G = VStr "" ->
        sign_in (world s0) = Some (signInAnonymously (getAuth app)))
    /\ userId (ui s0) = None
    /\ isAuthReady (ui s0) = false /\ loading (ui s0) = true
    /\ books (ui s0) = initialBooks
    /\ modal (ui s0) = mkModal false "" false
    /\ console (world s0) = [] /\ pending (world s0) = []
    /\ documents (world s0) = []
    /\ render (ui s0) = LoadingView
    /\ booksQuery G (ui s0) = None.
Proof.
  intros Hc Hu. cbv zeta.
  destruct (usable_options_keys _ Hu) as (k & ks & Hk).
  unfold mount. rewrite Hc. cbn. rewrite Hk. cbn.
  eexists. split; [reflexivity|]. unfold initEffect.
  cbn [length Nat.eqb]. unfold attemptSignIn.
  assert (__initial_auth_token G = VUndef \/ __initial_auth_token G = VNull
          \/ __initial_auth_token G = VStr "" ->
          to_boolean (initialAuthToken G) = false) as Htok.
  { unfold initialAuthToken. by intros [->|[->| ->]]. }
  destruct (to_boolean (initialAuthToken G)) eqn:Ht.
  - repeat split; try reflexivity. intros H. by apply Htok in H.
  - by repeat split.
Qed.

(** X2. A configuration that is not an object with keys never gets to the
    SDK.  If [JSON.parse] throws, or yields null, the page does not start.
    A configuration without keys (a boolean, a number, [NaN], an empty
    string, an empty array, an empty object) gives the page without
    Firebase, as an absent configuration does: ready at once, past loading,
    no handle, no identity, no listener, no sign-in, one line on the
    console. *)
Theorem startup_by_configuration :
  (firebaseConfig G = None -> mount G = None)
  /\ forall config,
       firebaseConfig G = Some config ->
       (config = VUndef \/ config = VNull -> mount G = None)
       /\ ((exists b, config = VBool b) \/ (exists z, config = VNum z)
           \/ config = VNaN \/ config = VStr "" \/ config = VArr []
           \/ config = VObj ∅ ->
           exists s0,
             mount G = Some s0
             /\ isAuthReady (ui s0) = true /\ loading (ui s0) = false
             /\ db (ui s0) = None /\ auth (ui s0) = None
             /\ userId (ui s0) = None
             /\ auth_listeners (world s0) = [] /\ sign_in (world s0) = None
             /\ console (world s0)
                = [("Firebase config is missing. Data persistence disabled.",
                    None)]).
Proof.
  split; [by unfold mount; intros ->|].
  intros config Hc. unfold mount. rewrite Hc. cbn [mbind option_bind].
  split; [by intros [->| ->]|].
  intros [[b ->]|[[z ->]|[->|[->|[->| ->]]]]];
    cbn [Object_keys mbind option_bind]; rewrite ?map_to_list_empty;
    eexists; (split; [reflexivity|]); by repeat split.
Qed.

End StartUp.

(** ** Along the life of the page *)

Section Life.

Context (G : Globals).

Lemma identity_after_snoc (evs : list Event) (ev : Event) (u : option string) :
  identity_after (evs ++ [ev]) u
  = match ev with
    | AuthStateChanged user => uid <$> user
    | _ => identity_after evs u
    end.
Proof.
  revert u. induction evs as [|e evs IH]; intros u; [by destruct ev|].
  destruct e; cbn [app identity_after]; apply IH.
Qed.

Lemma catalogue_after_snoc (evs : list Event) (ev : Event) (b : list obj) :
  catalogue_after (evs ++ [ev]) b
  = match ev with
    | Snapshot docs => map fetchedBook docs
    | SnapshotError _ => initialBooks
    | _ => catalogue_after evs b
    end.
Proof.
  revert b. induction evs as [|e evs IH]; intros b; [by destruct ev|].
  destruct e; cbn [app catalogue_after]; apply IH.
Qed.

Lemma existsb_snoc {A} (f : A -> bool) (l : list A) (x : A) :
  existsb f (l ++ [x]) = existsb f l || f x.
Proof. rewrite existsb_app. cbn. by rewrite orb_false_r. Qed.

(** X3. The identity is the one of the last auth event: the [uid] of the
    user it reported, or none if it reported no user or no auth event has
    come yet.  No other event changes the identity. *)
Theorem identity_is_last_auth_event (evs : list Event) (s : Sys) :
  reaches G evs s -> userId (ui s) = identity_after evs None.
Proof.
  induction 1 as [s Hm|evs s ev s' _ IH Hstep].
  - by apply mount_spec in Hm as (_ & Hu & _).
  - invert_step Hstep; rewrite identity_after_snoc;
      solve [ exact IH | by destruct user | by destruct (callback x) ].
Qed.

(** X4. The catalogue is what the last subscription event left: the
    entries of the last snapshot, or the default set after an error or
    before any subscription event.  Purchases, notifications, timers and
    writes never change it. *)
Theorem catalogue_is_last_subscription_event (evs : list Event) (s : Sys) :
  reaches G evs s -> books (ui s) = catalogue_after evs initialBooks.
Proof.
  induction 1 as [s Hm|evs s ev s' _ IH Hstep].
  - by apply mount_spec in Hm as (Hb & _).
  - pose proof (step_books G _ _ _ Hstep) as Hb.
    rewrite catalogue_after_snoc. destruct ev; by rewrite Hb.
Qed.

(** Loading never comes back. *)
Lemma step_loading (ev : Event) (s s' : Sys) :
  step G ev s = Some s' -> loading (ui s) = false -> loading (ui s') = false.
Proof.
  intros H. invert_step H; try done;
    [by destruct user | by destruct (callback x)].
Qed.

Lemma run_loading (evs : list Event) (s s' : Sys) :
  run G evs s = Some s' -> loading (ui s) = false -> loading (ui s') = false.
Proof.
  revert s. induction evs as [|ev evs IH]; intros s Hrun Hl.
  - cbn in Hrun. by injection Hrun as <-.
  - cbn [run] in Hrun. destruct (step G ev s) as [s1|] eqn:Hstep; [|done].
    cbn in Hrun. eapply IH; [done|]. by eapply step_loading.
Qed.

Lemma reaches_mounted (evs : list Event) (s : Sys) :
  reaches G evs s -> exists s0, mount G = Some s0.
Proof. induction 1; eauto. Qed.

Lemma reaches_loading (evs : list Event) (s0 s : Sys) :
  mount G = Some s0 ->
  reaches G evs s ->
  isAuthReady (ui s) = negb (loading (ui s))
  /\ loading (ui s)
     = loading (ui s0) && negb (existsb is_AuthStateChanged evs).
Proof.
  intros Hm0. induction 1 as [s Hm|evs s ev s' _ [IH1 IH2] Hstep].
  - assert (s = s0) as -> by congruence. split; [|by rewrite andb_true_r].
    destruct (mount_modes G _ Hm) as [(-> & -> & _)|(-> & -> & _)]; done.
  - rewrite existsb_snoc, negb_orb, andb_assoc, <- IH2.
    invert_step Hstep; cbn [is_AuthStateChanged negb];
      rewrite ?andb_true_r, ?andb_false_r;
      solve [ done | by destruct user | by destruct (callback x) ].
Qed.

(** X5. The page is loading exactly as long as auth is not settled: it
    leaves loading when it mounts without Firebase or at the first auth
    event, whatever that event reports, and never goes back to loading.
    While loading it renders the loading view and nothing else. *)
Theorem loading_until_auth_settles (evs : list Event) (s0 s : Sys) :
  mount G = Some s0 ->
  reaches G evs s ->
  isAuthReady (ui s) = negb (loading (ui s))
  /\ loading (ui s)
     = loading (ui s0) && negb (existsb is_AuthStateChanged evs)
  /\ (loading (ui s) = true <-> render (ui s) = LoadingView)
  /\ forall evs' s',
       run G evs' s = Some s' -> loading (ui s) = false ->
       loading (ui s') = false.
Proof.
  intros Hm0 Hr. destruct (reaches_loading _ _ _ Hm0 Hr) as [Hready Hload].
  split; [done|]. split; [done|]. split.
  - unfold render. destruct (loading (ui s)); [done|].
    split; [done|]. intros [=].
  - intros evs' s'. apply run_loading.
Qed.

(** The handles and the listener are those of the mount. *)
Lemma reaches_handles (evs : list Event) (s0 s : Sys) :
  mount G = Some s0 ->
  reaches G evs s ->
  db (ui s) = db (ui s0) /\ auth (ui s) = auth (ui s0)
  /\ auth_listeners (world s) = auth_listeners (world s0).
Proof.
  intros Hm0. induction 1 as [s Hm|evs s ev s' _ (IH1 & IH2 & IH3) Hstep].
  - by assert (s = s0) as -> by congruence.
  - rewrite <- IH1, <- IH2, <- IH3.
    invert_step Hstep;
      solve [ done | by destruct user | by destruct (callback x) ].
Qed.

(** X6. Firebase is set up once: the storage handle, the auth handle and
    the single auth listener are those of the mount for good.  The books
    subscription exists exactly from the first auth event on, it is on the
    public books collection of the namespace under the handle of the mount,
    and a page without Firebase never has one. *)
Theorem one_setup_one_subscription (evs : list Event) (s0 s : Sys) :
  mount G = Some s0 ->
  reaches G evs s ->
  db (ui s) = db (ui s0) /\ auth (ui s) = auth (ui s0)
  /\ auth_listeners (world s) = auth_listeners (world s0)
  /\ (length (auth_listeners (world s)) <= 1)%nat
  /\ booksQuery G (ui s)
     = (if existsb is_AuthStateChanged evs
        then (fun firestore => collection firestore (booksCollectionPath G))
               <$> db (ui s0)
        else None)
  /\ (subscribed (ui s) = true <-> is_Some (booksQuery G (ui s))).
Proof.
  intros Hm0 Hr.
  destruct (reaches_handles _ _ _ Hm0 Hr) as (Hdb & Hauth & Hal).
  destruct (reaches_loading _ _ _ Hm0 Hr) as [Hready Hload].
  do 3 (split; [done|]). split; [|split].
  - rewrite Hal.
    destruct (mount_modes G _ Hm0) as [(_ & _ & _ & -> & _)|(_ & _ & _ & _ & a & ->)];
      cbn; lia.
  - unfold booksQuery. rewrite Hready, Hload, Hdb.
    destruct (mount_modes G _ Hm0)
      as [(_ & _ & -> & _)|(_ & -> & [d ->] & _)].
    + by destruct (existsb is_AuthStateChanged evs).
    + by destruct (existsb is_AuthStateChanged evs).
  - unfold subscribed, booksQuery.
    destruct (db (ui s)) as [d|], (isAuthReady (ui s)); cbn;
      split; try done; by intros [? [=]].
Qed.

(** X7. While the page is loading nothing has happened and nothing can be
    done: the catalogue is the default one, there is no identity, no
    notification, no timer, no navigation, no write pending or persisted and
    no subscription; the buy and close buttons are not there, and no
    snapshot can come. *)
Theorem nothing_happens_while_loading (evs : list Event) (s : Sys) :
  reaches G evs s ->
  loading (ui s) = true ->
  render (ui s) = LoadingView /\ renderModal (ui s) = None
  /\ books (ui s) = initialBooks /\ userId (ui s) = None
  /\ modal (ui s) = mkModal false "" false
  /\ timers (world s) = [] /\ navigations (world s) = []
  /\ pending (world s) = [] /\ documents (world s) = []
  /\ booksQuery G (ui s) = None
  /\ (forall i autoId now, step G (BuyNow i autoId now) s = None)
  /\ step G CloseModal s = None
  /\ (forall docs, step G (Snapshot docs) s = None)
  /\ (forall error, step G (SnapshotError error) s = None).
Proof.
  intros Hr Hl.
  assert (forall evs s, reaches G evs s -> loading (ui s) = true ->
                        isAuthReady (ui s) = false) as Hnot_ready.
  { intros evs1 s1 Hr1 Hl1. destruct (reaches_mounted _ _ Hr1) as [s0 Hm].
    by rewrite (proj1 (reaches_loading _ _ _ Hm Hr1)), Hl1. }
  pose proof (Hnot_ready _ _ Hr Hl) as Hready.
  assert (books (ui s) = initialBooks /\ userId (ui s) = None
          /\ modal (ui s) = mkModal false "" false
          /\ timers (world s) = [] /\ navigations (world s) = []
          /\ pending (world s) = [] /\ documents (world s) = [])
    as (Hb & Hu & Hmo & Ht & Hn & Hp & Hd).
  { clear Hready. induction Hr as [s Hm|evs s ev s' Hr IH Hstep].
    - apply mount_spec in Hm as (? & ? & ? & ? & ? & ? & ? & _).
      by repeat split.
    - assert (loading (ui s) = true) as Hl0.
      { destruct (loading (ui s)) eqn:E; [done|].
        by rewrite (step_loading _ _ _ Hstep E) in Hl. }
      destruct (IH Hl0) as (Hb & Hu & Hmo & Ht & Hn & Hp & Hd). clear IH.
      pose proof (Hnot_ready _ _ Hr Hl0) as Hready.
      invert_step Hstep;
        solve [ done
              | by destruct user
              | congruence
              | match goal with
                | H : subscribed _ = true |- _ =>
                    unfold subscribed in H; rewrite Hready in H;
                    by destruct (db (ui s))
                | H : timers _ !! _ = Some _ |- _ => by rewrite Ht in H
                | H : pending _ !! _ = Some _ |- _ => by rewrite Hp in H
                end ]. }
  unfold render, renderModal, booksQuery. cbn [step]. unfold subscribed.
  rewrite Hl, Hready. cbn. rewrite orb_true_r. by repeat split.
Qed.

Lemma step_documents (ev : Event) (s s' : Sys) :
  step G ev s = Some s' ->
  documents (world s) `prefix_of` documents (world s').
Proof.
  intros H.
  destruct (step_writes G _ _ _ H)
    as [[_ ->]|[(w & uid & _ & -> & _)|(i & w & _ & _ & [-> | ->])]];
    try done.
  by eexists.
Qed.

Lemma run_documents (evs : list Event) (s s' : Sys) :
  run G evs s = Some s' ->
  documents (world s) `prefix_of` documents (world s').
Proof.
  revert s. induction evs as [|ev evs IH]; intros s Hrun.
  - cbn in Hrun. by injection Hrun as <-.
  - cbn [run] in Hrun. destruct (step G ev s) as [s1|] eqn:Hstep; [|done].
    cbn in Hrun. etrans; [by eapply step_documents|by apply IH].
Qed.

Lemma submseteq_NoDup {A} (l k : list A) : l ⊆+ k -> NoDup k -> NoDup l.
Proof.
  intros (l' & Hp & Hs)%submseteq_sublist_r Hk. rewrite Hp.
  by eapply sublist_NoDup.
Qed.

(** The identifiers written under are identifiers [doc] generated for the
    clicks: a step adds at most the one of its click. *)
Lemma step_written_refs (ev : Event) (s s' : Sys) :
  step G ev s = Some s' ->
  doc_autoId <$> written_refs s'
  ⊆+ (doc_autoId <$> written_refs s) ++ autoIds [ev].
Proof.
  intros H. unfold written_refs.
  assert (forall (i : nat) (w : PendingWrite) (ds : list (DocumentReference * obj))
                 (ps : list PendingWrite),
            ps !! i = Some w ->
            doc_autoId <$> ((ds ++ [(write_ref w, write_data w)]).*1
                            ++ (write_ref <$> delete i ps))
            ⊆+ doc_autoId <$> (ds.*1 ++ (write_ref <$> ps))) as Hmove.
  { intros i w ds ps Hi. apply Permutation_submseteq, fmap_Permutation.
    rewrite fmap_app. cbn [fmap list_fmap fst]. rewrite <- app_assoc.
    apply Permutation_app_head. cbn [app].
    rewrite (delete_Permutation ps i w Hi) at 2. by rewrite fmap_cons. }
  assert (forall (i : nat) (ds : list (DocumentReference * obj))
                 (ps : list PendingWrite),
            doc_autoId <$> (ds.*1 ++ (write_ref <$> delete i ps))
            ⊆+ doc_autoId <$> (ds.*1 ++ (write_ref <$> ps))) as Hdrop.
  { intros i ds ps. apply sublist_submseteq, fmap_sublist, sublist_app;
      [done|]. apply fmap_sublist, sublist_delete. }
  step_fields H; cbn [autoIds omap]; rewrite ?app_nil_r;
    try reflexivity; try (by eapply Hmove); try apply Hdrop;
    try (by apply submseteq_inserts_r).
  change (autoIds [BuyNow i autoId now]) with [autoId].
  by rewrite !fmap_app, !app_assoc.
Qed.

Lemma reaches_written_refs (evs : list Event) (s : Sys) :
  reaches G evs s -> doc_autoId <$> written_refs s ⊆+ autoIds evs.
Proof.
  induction 1 as [s Hm|evs s ev s' Hr IH Hstep].
  - apply mount_inv in Hm as (config & keys & _ & _ & ->).
    unfold initEffect, attemptSignIn.
    destruct (length keys =? 0)%nat; [done|].
    by destruct (to_boolean (initialAuthToken G)).
  - etrans; [by eapply step_written_refs|].
    unfold autoIds. rewrite omap_app. by apply submseteq_app.
Qed.

(** X8. No record is ever overwritten.  [doc] generates an identifier for
    each purchase; as long as these identifiers differ from one another, as
    the ones of the SDK do, no two writes of the page, persisted or pending,
    go to the same reference.  So the records persisted before are still
    there afterwards, as written and in the same order, followed by the new
    ones, each under a reference of its own. *)
Theorem records_are_never_overwritten (pre evs : list Event) (s s' : Sys) :
  reaches G pre s ->
  run G evs s = Some s' ->
  NoDup (autoIds (pre ++ evs)) ->
  NoDup (written_refs s')
  /\ NoDup (documents (world s')).*1
  /\ documents (world s) `prefix_of` documents (world s')
  /\ forall d, d ∈ documents (world s) -> d ∈ documents (world s').
Proof.
  intros Hr Hrun Hnd.
  pose proof (run_reaches G _ _ _ _ Hr Hrun) as Hr'.
  pose proof (reaches_written_refs _ _ Hr') as Hsub.
  assert (NoDup (written_refs s')) as Hrefs.
  { apply (NoDup_fmap_1 doc_autoId). by eapply submseteq_NoDup. }
  split; [done|]. split; [by apply NoDup_app in Hrefs as [? _]|].
  pose proof (run_documents _ _ _ Hrun) as Hp.
  split; [done|]. intros d Hd. destruct Hp as [k ->].
  apply elem_of_app. by left.
Qed.

Lemma step_write_count (ev : Event) (s s' : Sys) :
  step G ev s = Some s' ->
  (length (documents (world s')) + length (pending (world s'))
   <= length (documents (world s)) + length (pending (world s))
      + (if is_BuyNow ev then 1 else 0))%nat.
Proof.
  intros H. invert_step H; run_handlers; cbn [is_BuyNow];
    rewrite ?length_app, ?length_delete by eauto; cbn [length];
    try lia; try (destruct user; run_handlers; lia);
    try (destruct (callback x); run_handlers; lia).
  all: match goal with
       | H : pending _ !! _ = Some _ |- _ =>
           apply lookup_lt_Some in H; run_handlers; lia
       end.
Qed.

(** X9. There is at most one record per click on a buy button: the
    records persisted and the writes pending never outnumber the buy
    clicks so far. *)
Theorem at_most_one_record_per_click (evs : list Event) (s : Sys) :
  reaches G evs s ->
  (length (documents (world s)) + length (pending (world s))
   <= length (List.filter is_BuyNow evs))%nat.
Proof.
  induction 1 as [s Hm|evs s ev s' _ IH Hstep].
  - apply mount_spec in Hm as (_ & _ & _ & -> & -> & _). cbn. lia.
  - apply step_write_count in Hstep. rewrite List.filter_app, length_app.
    cbn [List.filter]. destruct (is_BuyNow ev); cbn [length]; lia.
Qed.

(** Every pending write carries, for its continuation, the title that is in
    its record. *)
Lemma reaches_pending_title (evs : list Event) (s : Sys) :
  reaches G evs s ->
  Forall (fun w => get_prop (write_data w) "bookTitle" = write_bookTitle w)
         (pending (world s)).
Proof.
  induction 1 as [s Hm|evs s ev s' _ IH Hstep].
  - apply mount_spec in Hm as (_ & _ & _ & -> & _). constructor.
  - invert_step Hstep; run_handlers; run_handlers_in IH;
      try done; try (by destruct user); try (by destruct (callback x));
      try (by apply Forall_delete).
    apply Forall_app. split; [done|]. by repeat constructor.
Qed.

(** X10. A success notification is never shown for nothing: whenever the
    slot holds a success, and so whenever the modal titled [Success!] is on
    the page, some persisted record exists whose [bookTitle] is the title
    the message names. *)
Theorem success_means_a_record (evs : list Event) (s : Sys) :
  reaches G evs s ->
  (isSuccess (modal (ui s)) = true ->
   exists r data,
     (r, data) ∈ documents (world s)
     /\ message (modal (ui s))
        = "Successfully purchased " +:+ String dquote
            (ToString (get_prop data "bookTitle")
             +:+ String dquote "! Check your library."))
  /\ (forall v,
        renderModal (ui s) = Some v -> modal_title v = "Success!" ->
        exists r data,
          (r, data) ∈ documents (world s)
          /\ modal_message v
             = "Successfully purchased " +:+ String dquote
                 (ToString (get_prop data "bookTitle")
                  +:+ String dquote "! Check your library.")).
Proof.
  intros Hr.
  assert (isSuccess (modal (ui s)) = true ->
          exists r data,
            (r, data) ∈ documents (world s)
            /\ message (modal (ui s))
               = "Successfully purchased " +:+ String dquote
                   (ToString (get_prop data "bookTitle")
                    +:+ String dquote "! Check your library.")) as Hinv.
  { induction Hr as [s Hm|evs s ev s' Hr IH Hstep].
    - by apply mount_spec in Hm as (_ & _ & -> & _).
    - pose proof (reaches_pending_title _ _ Hr) as Htitle.
      invert_step Hstep; run_handlers; run_handlers_in IH;
        try done; try (by destruct user).
      + destruct (callback x). run_handlers. exact IH.
      + intros _. exists (write_ref x), (write_data x). split.
        * apply elem_of_app. right. by apply list_elem_of_singleton.
        * by rewrite (Forall_lookup_1 _ _ _ _ Htitle Hstep0). }
  split; [done|].
  intros v Hv Ht. unfold renderModal in Hv.
  destruct (loading (ui s)); [done|].
  destruct (visible (modal (ui s))); [|done]. injection Hv as <-.
  destruct (isSuccess (modal (ui s))) eqn:E; [|done].
  by apply Hinv.
Qed.

(** X11. In a page with Firebase, a visitor who is signed in whenever auth
    reports is never redirected: if every auth event carries a user with a
    non-empty [uid], no redirect timer is ever set and the page never
    navigates; and once past loading there is always an identity. *)
Theorem signed_in_is_never_redirected (evs : list Event) (s0 s : Sys) :
  mount G = Some s0 ->
  loading (ui s0) = true ->
  reaches G evs s ->
  forallb keeps_signed_in evs = true ->
  timers (world s) = [] /\ navigations (world s) = []
  /\ (loading (ui s) = false -> exists u, userId (ui s) = Some u /\ u <> "").
Proof.
  intros Hm0 Hl0 Hr Hall.
  assert (timers (world s) = [] /\ navigations (world s) = []
          /\ (loading (ui s) = false -> to_boolean (userId (ui s)) = true))
    as (Ht & Hn & Hu).
  { induction Hr as [s Hm|evs s ev s' Hr IH Hstep].
    - assert (s = s0) as -> by congruence.
      apply mount_spec in Hm as (_ & _ & _ & _ & _ & -> & -> & _).
      split; [done|]. split; [done|]. by rewrite Hl0.
    - rewrite forallb_app in Hall. apply andb_true_iff in Hall as [Hall Hev].
      cbn in Hev. rewrite andb_true_r in Hev.
      destruct (IH Hall) as (Ht & Hn & Hu). clear IH.
      invert_step Hstep; run_handlers; run_handlers_in Hu;
        try done; try (by rewrite Hu in *).
      + destruct user; run_handlers; by repeat split.
      + by rewrite Ht in Hstep0. }
  split; [done|]. split; [done|]. intros Hl. by apply userId_truthy, Hu.
Qed.

(** X12. A failed sign-in is logged and nothing else: the component state,
    and with it the page, stays as it is, one line goes to the console, and
    the failure cannot be reported a second time.  Over the life of the
    page at most one sign-in failure is ever logged. *)
Theorem sign_in_fails_silently_once (evs : list Event) (s : Sys) :
  reaches G evs s ->
  (length (List.filter is_SignInRejected evs) <= 1)%nat
  /\ forall error s',
       step G (SignInRejected error) s = Some s' ->
       ui s' = ui s /\ render (ui s') = render (ui s)
       /\ console (world s')
          = console (world s) ++ [("Firebase Auth Sign-In Error:", Some error)]
       /\ List.filter is_SignInRejected evs = []
       /\ forall error', step G (SignInRejected error') s' = None.
Proof.
  intros Hr.
  assert ((length (List.filter is_SignInRejected evs) <= 1)%nat
          /\ (is_Some (sign_in (world s)) ->
              List.filter is_SignInRejected evs = [])) as [Hle Hnone].
  { induction Hr as [s Hm|evs s ev s' _ [IH1 IH2] Hstep].
    - by split; [cbn; lia|].
    - rewrite List.filter_app, length_app. cbn [List.filter].
      step_fields Hstep; cbn [is_SignInRejected length];
        rewrite ?app_nil_r; try (split; [lia|done]).
      rewrite (IH2 Hstep0). cbn. split; [lia|]. by intros [? [=]]. }
  split; [done|]. intros error s' Hstep.
  apply step_inv in Hstep as [Hsome ->].
  split; [done|]. split; [done|]. split; [done|]. split; [by apply Hnone|].
  intros error'. reflexivity.
Qed.

End Life.

(** ** Purchases, once more *)

Section Purchases.

Context (G : Globals).

Lemma string_length_app (a b : string) :
  String.length (a +:+ b) = (String.length a + String.length b)%nat.
Proof. induction a as [|c a IH]; simpl; [done|by f_equal]. Qed.

Lemma append_inj_r (p a b : string) : p +:+ a = p +:+ b -> a = b.
Proof. induction p as [|c p IH]; cbn; [done|]. intros [= H]. by apply IH. Qed.

Lemma append_inj_l (a b q : string) : a +:+ q = b +:+ q -> a = b.
Proof.
  revert b. induction a as [|c a IH]; intros [|c' b] H.
  - done.
  - apply (f_equal String.length) in H.
    rewrite !string_length_app in H. simpl in H. lia.
  - apply (f_equal String.length) in H.
    rewrite !string_length_app in H. simpl in H. lia.
  - simpl in H. injection H as -> H. f_equal. by apply IH.
Qed.

(** X13. Each identity has a purchases collection of its own, and none of
    them is the public books collection the page listens to: two different
    [userId]s never give the same path, and every record the page has
    persisted lies in the purchases collection of the [userId] it names,
    never in the catalogue. *)
Theorem purchase_paths_are_separate :
  (forall u1 u2, purchasesPath G u1 = purchasesPath G u2 -> u1 = u2)
  /\ (forall u, purchasesPath G u <> booksCollectionPath G)
  /\ forall evs s r data,
       reaches G evs s ->
       (r, data) ∈ documents (world s) ->
       collection_path (doc_parent r) <> booksCollectionPath G
       /\ exists u, get_prop data "userId" = VStr u
                    /\ collection_path (doc_parent r) = purchasesPath G u.
Proof.
  assert (forall u, purchasesPath G u <> booksCollectionPath G) as Hsep.
  { intros u H. unfold purchasesPath, booksCollectionPath in H.
    do 2 apply append_inj_r in H. discriminate H. }
  split; [|split; [done|]].
  - intros u1 u2 H. unfold purchasesPath in H.
    do 3 apply append_inj_r in H. by apply append_inj_l in H.
  - intros evs s r data Hr Hin.
    destruct (reaches_owned G _ _ Hr) as [_ Hd].
    eapply Forall_forall in Hd; [|exact Hin].
    destruct Hd as (u & _ & Hu & Hpath). cbn in Hu, Hpath.
    split; [by rewrite Hpath|]. exists u. unfold get_prop. by rewrite Hu.
Qed.

(** X14. What a call of [handlePurchase] does by itself is little.  It
    leaves the catalogue, the identity, the handles, the readiness, the
    navigation and the persisted records alone.  It never raises a success:
    a success in the slot after the call was there before, and a slot it
    changed shows a non-success notification.  It sets the redirect timer
    exactly when there is no identity, and then hands nothing over.  It
    hands over at most one write, and only with an identity, an entry id
    and a storage handle. *)
Theorem handlePurchase_by_itself
    (s : Sys) (ebookId bookTitle price : value) (autoId : string)
    (now : TimeValue) :
  let s1 := exec (handlePurchase G ebookId bookTitle price autoId now) s in
  (books (ui s1) = books (ui s) /\ userId (ui s1) = userId (ui s)
   /\ db (ui s1) = db (ui s) /\ auth (ui s1) = auth (ui s)
   /\ isAuthReady (ui s1) = isAuthReady (ui s)
   /\ loading (ui s1) = loading (ui s)
   /\ navigations (world s1) = navigations (world s)
   /\ documents (world s1) = documents (world s)
   /\ clock (world s1) = clock (world s))
  /\ (isSuccess (modal (ui s1)) = true -> modal (ui s1) = modal (ui s))
  /\ (modal (ui s1) = modal (ui s)
      \/ (visible (modal (ui s1)) = true /\ isSuccess (modal (ui s1)) = false))
  /\ (to_boolean (userId (ui s)) = false ->
      timers (world s1)
      = timers (world s) ++ [mkTimer (clock (world s) + 1500) RedirectToRegister]
      /\ pending (world s1) = pending (world s)
      /\ visible (modal (ui s1)) = true /\ isSuccess (modal (ui s1)) = false)
  /\ (to_boolean (userId (ui s)) = true -> timers (world s1) = timers (world s))
  /\ (pending (world s1) = pending (world s)
      \/ exists w, pending (world s1) = pending (world s) ++ [w])
  /\ (pending (world s1) <> pending (world s) ->
      to_boolean (userId (ui s)) = true /\ to_boolean ebookId = true
      /\ is_Some (db (ui s))).
Proof.
  cbv zeta.
  destruct (handlePurchase_cases G s ebookId bookTitle price autoId now)
    as [[H1 ->]|[(H1 & H2 & ->)|[(H1 & H2 & H3 & ->)
       |(uid & firestore & Hu & Hne & He & Hdb & ->)]]].
  - split; [by repeat split|]. split; [done|]. split; [by right|].
    split; [by repeat split|]. split; [by rewrite H1|]. split; [by left|].
    done.
  - split; [by repeat split|]. split; [done|]. split; [by right|].
    split; [by rewrite H1|]. split; [done|]. split; [by left|]. done.
  - split; [by repeat split|]. split; [done|]. split; [by right|].
    split; [by rewrite H1|]. split; [done|]. split; [by left|]. done.
  - assert (to_boolean (userId (ui s)) = true) as H1
      by (apply userId_truthy; eauto).
    split; [by repeat split|]. split; [done|]. split; [by left|].
    split; [by rewrite H1|]. split; [done|]. split; [right; by eexists|].
    intros _. by rewrite Hdb.
Qed.

Lemma handlePurchase_hands_over
    (s : Sys) (uid : string) (firestore : Firestore)
    (ebookId bookTitle price : value) (autoId : string) (now : TimeValue) :
  userId (ui s) = Some uid -> uid <> "" -> to_boolean ebookId = true ->
  db (ui s) = Some firestore ->
  exec (handlePurchase G ebookId bookTitle price autoId now) s
  = exec (setPending (fun ps => ps ++ [purchase_write G uid firestore ebookId
                                         bookTitle price autoId now])) s.
Proof.
  intros Hu Hne He Hdb.
  rewrite (handlePurchase_write _ _ _ _ _ _ _ firestore);
    [|by apply userId_truthy; eauto|done|done].
  by rewrite Hu.
Qed.

(** X15. Purchases are not de-duplicated.  Two clicks that pass the
    checks, even with the same arguments, hand over two writes, in the order
    of the clicks.  When both succeed two records are persisted, in the order
    in which the writes succeed, whichever that is, and no write is left
    pending from them. *)
Theorem two_purchases_two_records
    (s : Sys) (uid : string) (firestore : Firestore)
    (id1 title1 price1 id2 title2 price2 : value)
    (autoId1 autoId2 : string) (now1 now2 : TimeValue) :
  userId (ui s) = Some uid -> uid <> "" ->
  to_boolean id1 = true -> to_boolean id2 = true ->
  db (ui s) = Some firestore ->
  let w1 := purchase_write G uid firestore id1 title1 price1 autoId1 now1 in
  let w2 := purchase_write G uid firestore id2 title2 price2 autoId2 now2 in
  let d1 := (write_ref w1, write_data w1) in
  let d2 := (write_ref w2, write_data w2) in
  let n := length (pending (world s)) in
  let s2 := exec (handlePurchase G id2 title2 price2 autoId2 now2)
              (exec (handlePurchase G id1 title1 price1 autoId1 now1) s) in
  pending (world s2) = pending (world s) ++ [w1; w2]
  /\ documents (world s2) = documents (world s)
  /\ (exists s3 s4,
        settleWrite n None s2 = Some s3 /\ settleWrite n None s3 = Some s4
        /\ documents (world s4) = documents (world s) ++ [d1; d2]
        /\ pending (world s4) = pending (world s))
  /\ (exists s3 s4,
        settleWrite (S n) None s2 = Some s3 /\ settleWrite n None s3 = Some s4
        /\ documents (world s4) = documents (world s) ++ [d2; d1]
        /\ pending (world s4) = pending (world s)).
Proof.
  intros Hu Hne H1 H2 Hdb. cbv zeta.
  rewrite (handlePurchase_hands_over s uid firestore) by done.
  rewrite (handlePurchase_hands_over _ uid firestore) by done.
  set (w1 := purchase_write G uid firestore id1 title1 price1 autoId1 now1).
  set (w2 := purchase_write G uid firestore id2 title2 price2 autoId2 now2).
  assert (forall l : list PendingWrite,
            (l ++ [w1; w2]) !! length l = Some w1
            /\ (l ++ [w1; w2]) !! S (length l) = Some w2
            /\ delete (length l) (l ++ [w1; w2]) = l ++ [w2]
            /\ delete (S (length l)) (l ++ [w1; w2]) = l ++ [w1]
            /\ (l ++ [w1]) !! length l = Some w1
            /\ (l ++ [w2]) !! length l = Some w2
            /\ delete (length l) (l ++ [w1]) = l
            /\ delete (length l) (l ++ [w2]) = l) as Hl.
  { induction l as [|x l IH]; [done|].
    destruct IH as (? & ? & ? & ? & ? & ? & ? & ?).
    cbn. repeat split; by f_equal. }
  destruct (Hl (pending (world s))) as (L1 & L2 & D1 & D2 & L3 & L4 & D3 & D4).
  run_handlers. rewrite <- !app_assoc. cbn [app].
  split; [done|]. split; [done|].
  match goal with
  | |- context [settleWrite _ None ?st] => set (s2 := st)
  end.
  assert (pending (world s2) = pending (world s) ++ [w1; w2]) as Hp2 by done.
  assert (documents (world s2) = documents (world s)) as Hd2 by done.
  clearbody s2. split.
  - destruct (settleWrite_resolved s2 (length (pending (world s))) w1)
      as (s3 & Hs3 & Hd3 & Hp3 & _); [by rewrite Hp2|].
    rewrite Hp2, D1 in Hp3.
    destruct (settleWrite_resolved s3 (length (pending (world s))) w2)
      as (s4 & Hs4 & Hd4 & Hp4 & _); [by rewrite Hp3|].
    exists s3, s4. split; [done|]. split; [done|].
    rewrite Hd4, Hd3, Hd2, Hp4, Hp3, D4, <- app_assoc. by split.
  - destruct (settleWrite_resolved s2 (S (length (pending (world s)))) w2)
      as (s3 & Hs3 & Hd3 & Hp3 & _); [by rewrite Hp2|].
    rewrite Hp2, D2 in Hp3.
    destruct (settleWrite_resolved s3 (length (pending (world s))) w1)
      as (s4 & Hs4 & Hd4 & Hp4 & _); [by rewrite Hp3|].
    exists s3, s4. split; [done|]. split; [done|].
    rewrite Hd4, Hd3, Hd2, Hp4, Hp3, D3, <- app_assoc. by split.
Qed.

Lemma purchase_record_inj (a b c d e a' b' c' d' e' : value) :
  ({[ "ebookId" := a; "bookTitle" := b; "price" := c;
      "purchaseDate" := d; "userId" := e ]} : obj)
  = {[ "ebookId" := a'; "bookTitle" := b'; "price" := c';
       "purchaseDate" := d'; "userId" := e' ]} ->
  a = a' /\ b = b' /\ c = c' /\ d = d' /\ e = e'.
Proof.
  intros H.
  pose proof (f_equal (fun m : obj => m !! "ebookId") H) as F1.
  pose proof (f_equal (fun m : obj => m !! "bookTitle") H) as F2.
  pose proof (f_equal (fun m : obj => m !! "price") H) as F3.
  pose proof (f_equal (fun m : obj => m !! "purchaseDate") H) as F4.
  pose proof (f_equal (fun m : obj => m !! "userId") H) as F5.
  cbn in F1, F2, F3, F4, F5. by simplify_eq.
Qed.

(** X16. The record tells the purchase: if two calls that reach the write
    hand over the same record, then they were made with the same entry id,
    title and price, for the same identity and at the same instant, to the
    millisecond. *)
Theorem record_determines_purchase
    (s s' : Sys) (ebookId bookTitle price ebookId' bookTitle' price' : value)
    (autoId autoId' : string) (now now' : TimeValue) (w w' : PendingWrite) :
  pending (world (exec (handlePurchase G ebookId bookTitle price autoId now) s))
  = pending (world s) ++ [w] ->
  pending (world (exec (handlePurchase G ebookId' bookTitle' price' autoId'
                          now') s'))
  = pending (world s') ++ [w'] ->
  write_data w = write_data w' ->
  ebookId = ebookId' /\ bookTitle = bookTitle' /\ price = price'
  /\ userId (ui s) = userId (ui s') /\ ms_of now = ms_of now'.
Proof.
  intros Hw Hw' Heq.
  destruct (handlePurchase_cases G s ebookId bookTitle price autoId now)
    as [[_ E]|[(_ & _ & E)|[(_ & _ & _ & E)
       |(uid & firestore & Hu & _ & _ & _ & E)]]];
    rewrite E in Hw; try (by apply snoc_neq in Hw).
  destruct (handlePurchase_cases G s' ebookId' bookTitle' price' autoId' now')
    as [[_ E']|[(_ & _ & E')|[(_ & _ & _ & E')
       |(uid' & firestore' & Hu' & _ & _ & _ & E')]]];
    rewrite E' in Hw'; try (by apply snoc_neq in Hw').
  apply app_inv_head in Hw, Hw'. injection Hw as <-. injection Hw' as <-.
  cbn [write_data] in Heq.
  apply purchase_record_inj in Heq as (-> & -> & -> & [= F4] & [= ->]).
  split; [done|]. split; [done|]. split; [done|]. split; [congruence|].
  assert (Some (ms_of now) = Some (ms_of now')) as [=]; [|done].
  by rewrite <- !parse_toISOString, F4.
Qed.

End Purchases.

(** ** Worked examples, continued *)

(** X1, instance: the page in the canvas, no token given. *)
Lemma normal_startup_example :
  (firebaseConfig canvas = Some canvas_config
   /\ usable_options canvas_config = true)
  /\ exists s0,
       mount canvas = Some s0
       /\ db (ui s0) = Some a_firestore
       /\ sign_in (world s0)
          = Some (signInAnonymously (getAuth (initializeApp canvas_config)))
       /\ loading (ui s0) = true.
Proof.
  split; [by split|].
  destruct (normal_startup canvas canvas_config eq_refl eq_refl)
    as (s0 & Hm & Hdb & _ & _ & Hs & _ & _ & _ & Hl & _).
  exists s0. split; [exact Hm|]. split; [exact Hdb|].
  split; [exact Hs|exact Hl].
Defined.

(** X2, instance: a configuration that parses to the number 0. *)
Lemma startup_by_configuration_example :
  let G := mkGlobals VUndef (VStr "0") VUndef (fun _ => Some (VNum 0)) in
  firebaseConfig G = Some (VNum 0)
  /\ exists s0, mount G = Some s0 /\ isAuthReady (ui s0) = true
                /\ db (ui s0) = None.
Proof.
  cbv zeta. split; [reflexivity|].
  destruct (proj2 (proj2 (startup_by_configuration
                     (mkGlobals VUndef (VStr "0") VUndef
                        (fun _ => Some (VNum 0))))
                    (VNum 0) eq_refl)
                  (or_intror (or_introl (ex_intro _ 0 eq_refl))))
    as (s0 & Hm & Hr & _ & Hdb & _).
  exists s0. split; [exact Hm|]. split; [exact Hr|exact Hdb].
Defined.

(** Names the state a sample trace ends in. *)
Ltac name_trace s E :=
  match goal with
  | |- context [trace ?G ?evs] =>
      destruct (trace G evs) as [s|] eqn:E;
      [|exfalso; vm_compute in E; discriminate E]
  end.

(** X3, instance: a sign-in, a sign-out and another sign-in. *)
Lemma identity_is_last_auth_event_example :
  (fun s => userId (ui s))
    <$> trace canvas [AuthStateChanged (Some (mkUser "u1"));
                      AuthStateChanged None; BuyNow 0 "auto1" an_instant;
                      AuthStateChanged (Some (mkUser "u2"))]
  = Some (Some "u2").
Proof.
  name_trace s E. apply trace_reaches in E.
  exact (f_equal Some (identity_is_last_auth_event canvas _ s E)).
Defined.

(** X4, instance: a snapshot, a purchase, then an error. *)
Lemma catalogue_is_last_subscription_event_example :
  (fun s => books (ui s))
    <$> trace canvas [AuthStateChanged (Some (mkUser "u1"));
                      Snapshot [mkDoc "b1" {[ "title" := VStr "One" ]}];
                      BuyNow 0 "auto1" an_instant;
                      SnapshotError (mkError "unavailable");
                      WriteResolved 0]
  = Some initialBooks.
Proof.
  name_trace s E. apply trace_reaches in E.
  exact (f_equal Some (catalogue_is_last_subscription_event canvas _ s E)).
Defined.

(** X5, instance: the sign-in fails, then auth reports no user. *)
Lemma loading_until_auth_settles_example :
  (fun s => (loading (ui s), isAuthReady (ui s)))
    <$> trace canvas [SignInRejected (mkError "network"); AuthStateChanged None]
  = Some (false, true).
Proof.
  name_trace s E. apply trace_reaches in E.
  destruct (loading_until_auth_settles canvas _ _ s eq_refl E)
    as (H2 & H3 & _).
  cbn [fmap option_fmap option_map]. rewrite H2, H3. reflexivity.
Defined.

(** X6, instance: the subscription of the page in the canvas. *)
Lemma one_setup_one_subscription_example :
  (fun s => (booksQuery canvas (ui s), length (auth_listeners (world s))))
    <$> trace canvas [AuthStateChanged None;
                      AuthStateChanged (Some (mkUser "u1"))]
  = Some (Some (collection a_firestore "artifacts/edubooks/public/data/books"),
          1%nat).
Proof.
  name_trace s E. apply trace_reaches in E.
  destruct (one_setup_one_subscription canvas _ _ s eq_refl E)
    as (_ & _ & Hal & _ & Hq & _).
  cbn [fmap option_fmap option_map]. rewrite Hq, Hal. reflexivity.
Defined.

(** X7, instance: the page in the canvas shortly after mounting, the
    sign-in having failed. *)
Lemma nothing_happens_while_loading_example :
  (fun s => (loading (ui s), render (ui s),
             step canvas (BuyNow 0 "auto1" an_instant) s))
    <$> trace canvas [Tick 10; SignInRejected (mkError "network")]
  = Some (true, LoadingView, None).
Proof.
  name_trace s E. apply trace_reaches in E.
  assert (Hl : loading (ui s) = true).
  { destruct (reaches_loading canvas _ _ s eq_refl E) as (_ & ->).
    reflexivity. }
  destruct (nothing_happens_while_loading canvas _ s E Hl)
    as (Hv & _ & _ & _ & _ & _ & _ & _ & _ & _ & Hbuy & _).
  cbn [fmap option_fmap option_map]. rewrite Hl, Hv, Hbuy. reflexivity.
Defined.

(** X8, instance: a second purchase, under another identifier, leaves the
    first record in place. *)
Lemma records_are_never_overwritten_example :
  let pre := [AuthStateChanged (Some (mkUser "u1"));
              BuyNow 0 "auto1" an_instant; WriteResolved 0] in
  let evs := [BuyNow 0 "auto2" an_instant; CloseModal; WriteResolved 0] in
  let s := default (ready None) (trace canvas pre) in
  (trace canvas pre = Some s /\ autoIds (pre ++ evs) = ["auto1"; "auto2"])
  /\ length (documents (world s)) = 1%nat
  /\ exists s',
       run canvas evs s = Some s'
       /\ length (documents (world s')) = 2%nat
       /\ NoDup (documents (world s')).*1
       /\ documents (world s) `prefix_of` documents (world s').
Proof.
  cbv zeta. split; [split; vm_compute; reflexivity|].
  split; [vm_compute; reflexivity|].
  assert (Hnd : NoDup (autoIds
                  ([AuthStateChanged (Some (mkUser "u1"));
                    BuyNow 0 "auto1" an_instant; WriteResolved 0]
                   ++ [BuyNow 0 "auto2" an_instant; CloseModal;
                       WriteResolved 0]))).
  { apply NoDup_cons. split; [by intros ?%list_elem_of_singleton|].
    apply NoDup_singleton. }
  assert (Hr : reaches canvas
                 [AuthStateChanged (Some (mkUser "u1"));
                  BuyNow 0 "auto1" an_instant; WriteResolved 0]
                 (default (ready None)
                    (trace canvas [AuthStateChanged (Some (mkUser "u1"));
                                   BuyNow 0 "auto1" an_instant;
                                   WriteResolved 0]))).
  { apply trace_reaches. vm_compute. reflexivity. }
  destruct (run canvas [BuyNow 0 "auto2" an_instant; CloseModal; WriteResolved 0]
              (default (ready None)
                 (trace canvas [AuthStateChanged (Some (mkUser "u1"));
                                BuyNow 0 "auto1" an_instant; WriteResolved 0])))
    as [s'|] eqn:E; [|exfalso; vm_compute in E; discriminate E].
  exists s'. split; [reflexivity|].
  destruct (records_are_never_overwritten canvas _ _ _ _ Hr E Hnd)
    as (_ & Hdocs & Hp & _).
  split; [|split; [exact Hdocs|exact Hp]].
  vm_compute in E. injection E as <-. reflexivity.
Defined.

(** X9, instance: two clicks, one write refused. *)
Lemma at_most_one_record_per_click_example :
  (fun s => (length (documents (world s)) + length (pending (world s))
             <=? 2)%nat)
    <$> trace canvas [AuthStateChanged (Some (mkUser "u1"));
                      BuyNow 0 "auto1" an_instant; BuyNow 0 "auto2" an_instant;
                      WriteRejected 0 (mkError "permission-denied")]
  = Some true.
Proof.
  name_trace s E. apply trace_reaches in E.
  pose proof (at_most_one_record_per_click canvas _ s E) as H.
  cbn [fmap option_fmap option_map]. f_equal. apply Nat.leb_le. exact H.
Defined.

(** X10, instance: a success is on the page after a write went through. *)
Lemma success_means_a_record_example :
  let s := default (ready None)
             (trace canvas [AuthStateChanged (Some (mkUser "u1"));
                            BuyNow 0 "auto1" an_instant; WriteResolved 0]) in
  (trace canvas [AuthStateChanged (Some (mkUser "u1"));
                 BuyNow 0 "auto1" an_instant; WriteResolved 0] = Some s
   /\ isSuccess (modal (ui s)) = true)
  /\ exists r data,
       (r, data) ∈ documents (world s)
       /\ message (modal (ui s))
          = "Successfully purchased " +:+ String dquote
              (ToString (get_prop data "bookTitle")
               +:+ String dquote "! Check your library.").
Proof.
  cbv zeta.
  assert (trace canvas [AuthStateChanged (Some (mkUser "u1"));
                        BuyNow 0 "auto1" an_instant; WriteResolved 0]
          = Some (default (ready None)
                    (trace canvas [AuthStateChanged (Some (mkUser "u1"));
                                   BuyNow 0 "auto1" an_instant;
                                   WriteResolved 0]))) as E
    by (vm_compute; reflexivity).
  assert (isSuccess (modal (ui (default (ready None)
            (trace canvas [AuthStateChanged (Some (mkUser "u1"));
                           BuyNow 0 "auto1" an_instant; WriteResolved 0]))))
          = true) as Hs by (vm_compute; reflexivity).
  split; [by split|].
  exact (proj1 (success_means_a_record canvas _ _ (trace_reaches canvas _ _ E))
               Hs).
Defined.

(** X11, instance: a visitor signed in throughout buys and is not sent
    away. *)
Lemma signed_in_is_never_redirected_example :
  (fun s => (timers (world s), navigations (world s)))
    <$> trace canvas [AuthStateChanged (Some (mkUser "u1"));
                      BuyNow 0 "auto1" an_instant;
                      AuthStateChanged (Some (mkUser "u2"));
                      BuyNow 0 "auto2" an_instant; Tick 2000]
  = Some ([], []).
Proof.
  name_trace s E. apply trace_reaches in E.
  destruct (signed_in_is_never_redirected canvas _ _ s eq_refl eq_refl E eq_refl)
    as (Ht & Hn & _).
  cbn [fmap option_fmap option_map]. rewrite Ht, Hn. reflexivity.
Defined.

(** X12, instance: after one failure no second one can be reported. *)
Lemma sign_in_fails_silently_once_example :
  let s0 := default (ready None) (mount canvas) in
  let s1 := default s0 (step canvas (SignInRejected (mkError "network")) s0) in
  (mount canvas = Some s0
   /\ step canvas (SignInRejected (mkError "network")) s0 = Some s1)
  /\ step canvas (SignInRejected (mkError "again")) s1 = None.
Proof.
  cbv zeta.
  assert (mount canvas = Some (default (ready None) (mount canvas))) as Hm
    by (vm_compute; reflexivity).
  assert (step canvas (SignInRejected (mkError "network"))
            (default (ready None) (mount canvas))
          = Some (default (default (ready None) (mount canvas))
                    (step canvas (SignInRejected (mkError "network"))
                       (default (ready None) (mount canvas))))) as Hstep
    by (vm_compute; reflexivity).
  split; [by split|].
  destruct (sign_in_fails_silently_once canvas [] _ (reaches_mount canvas _ Hm))
    as [_ Honce].
  destruct (Honce _ _ Hstep) as (_ & _ & _ & _ & Hno).
  apply Hno.
Defined.

(** X13, instance: the purchases of [u1] and of [u2], and the catalogue. *)
Lemma purchase_paths_are_separate_example :
  purchasesPath canvas "u1" = "artifacts/edubooks/users/u1/purchases"
  /\ booksCollectionPath canvas = "artifacts/edubooks/public/data/books"
  /\ purchasesPath canvas "u1" <> purchasesPath canvas "u2"
  /\ purchasesPath canvas "u1" <> booksCollectionPath canvas.
Proof.
  destruct (purchase_paths_are_separate canvas) as (Hinj & Hsep & _).
  split; [reflexivity|]. split; [reflexivity|]. split; [|apply Hsep].
  intros H. apply Hinj in H. discriminate H.
Defined.

(** X14, instance: a purchase while an earlier success is still shown. *)
Lemma handlePurchase_by_itself_example :
  let s := mkSys (mkState initialBooks None (Some a_firestore) (Some "u1")
                    true false (mkModal true "Successfully purchased" true))
                 initial_world in
  let s1 := exec (handlePurchase canvas (VStr "mern_stack_guide")
                    (VStr "MERN STACK") (VNum 999) "auto1" an_instant) s in
  isSuccess (modal (ui s1)) = true /\ modal (ui s1) = modal (ui s).
Proof.
  cbv zeta. split; [reflexivity|].
  apply (handlePurchase_by_itself canvas). reflexivity.
Defined.

(** X15, instance: the same card bought twice in a row. *)
Lemma two_purchases_two_records_example :
  let s2 := exec (handlePurchase canvas (VStr "mern_stack_guide")
                    (VStr "MERN STACK") (VNum 999) "auto2" an_instant)
              (exec (handlePurchase canvas (VStr "mern_stack_guide")
                       (VStr "MERN STACK") (VNum 999) "auto1" an_instant)
                    (ready (Some "u1"))) in
  (userId (ui (ready (Some "u1"))) = Some "u1" /\ "u1" <> "")
  /\ length (pending (world s2)) = 2%nat
  /\ exists s3 s4,
       settleWrite 1 None s2 = Some s3 /\ settleWrite 0 None s3 = Some s4
       /\ length (documents (world s4)) = 2%nat.
Proof.
  cbv zeta.
  assert (H1 : "u1" <> "") by discriminate.
  split; [by split|].
  destruct (two_purchases_two_records canvas (ready (Some "u1")) "u1"
              a_firestore (VStr "mern_stack_guide") (VStr "MERN STACK")
              (VNum 999) (VStr "mern_stack_guide") (VStr "MERN STACK")
              (VNum 999) "auto1" "auto2" an_instant an_instant
              eq_refl H1 eq_refl eq_refl eq_refl)
    as (Hp & _ & _ & (s3 & s4 & Hs3 & Hs4 & Hd & _)).
  split; [by rewrite Hp|].
  exists s3, s4. split; [exact Hs3|]. split; [exact Hs4|]. by rewrite Hd.
Defined.

(** X16, instance: two purchases that differ by one millisecond do not
    hand over the same record. *)
Lemma record_determines_purchase_example :
  let later := mkTimeValue 1700000000124 eq_refl in
  write_data (purchase_write canvas "u1" a_firestore (VStr "mern_stack_guide")
                (VStr "MERN STACK") (VNum 999) "auto1" an_instant)
  <> write_data (purchase_write canvas "u1" a_firestore
                   (VStr "mern_stack_guide") (VStr "MERN STACK") (VNum 999)
                   "auto1" later).
Proof.
  cbv zeta. intros Heq.
  destruct (record_determines_purchase canvas (ready (Some "u1"))
              (ready (Some "u1")) (VStr "mern_stack_guide") (VStr "MERN STACK")
              (VNum 999) (VStr "mern_stack_guide") (VStr "MERN STACK")
              (VNum 999) "auto1" "auto1" an_instant
              (mkTimeValue 1700000000124 eq_refl) _ _ eq_refl eq_refl Heq)
    as (_ & _ & _ & _ & Hms).
  discriminate Hms.
Defined.
